(** * SublimePTY: the process layer of [process.py]

    A shallow embedding of [Supervisor], [Process], [PtyProcess] and of the
    part of [SublimeView] the processes talk to.  Python objects live in
    stores indexed by address, so that the aliasing between a process, the
    views in its [_views] list and the back reference [view.process] is the
    one of the program.  Methods are computations in a small monad that
    threads the whole world and records a raised exception. *)

From Stdlib Require Import ZArith String Ascii.
From stdpp Require Import base option list gmap sets strings.
From Equations Require Import Equations.

Local Open Scope Z_scope.
Local Open Scope string_scope.

(** ** Byte strings

    The program is Python 2: [str] is a byte string, modelled by [string]. *)

Fixpoint str_take (n : nat) (s : string) : string :=
  match n, s with
  | S n', String c s' => String c (str_take n' s')
  | _, _ => EmptyString
  end.

Fixpoint str_drop (n : nat) (s : string) : string :=
  match n, s with
  | S n', String _ s' => str_drop n' s'
  | _, _ => s
  end.

(** ["*" * n] *)
Fixpoint str_repeat (s : string) (n : nat) : string :=
  match n with
  | O => EmptyString
  | S n' => s ++ str_repeat s n'
  end.

Definition chr (n : nat) : string := String (ascii_of_nat n) EmptyString.

(** ** Exceptions *)

Inductive PyExc : Set :=
| TypeError        (* also what [raise NotImplemented] ends in *)
| AttributeError
| IndexError
| KeyError
| OSError.

#[global] Instance PyExc_eq_dec : EqDecision PyExc.
Proof. solve_decision. Defined.

(** ** The operating system, as far as the program touches it *)

Record OS : Type := mkOS {
  environ  : gmap string string;   (* os.environ *)
  pty_free : nat;                  (* pseudo terminals still to be had *)
  open_fds : gset nat;             (* descriptors open in this process *)
  pending  : gmap nat string;      (* bytes waiting to be read, per descriptor *)
  written  : list (nat * string);  (* os.write calls, oldest first *)
  next_pid : nat;
  killed   : list nat              (* pids that were sent SIGKILL, oldest first *)
}.

Definition pending_at (o : OS) (fd : nat) : string := default "" (pending o !! fd).

Definition set_pending (f : gmap nat string -> gmap nat string) (o : OS) : OS :=
  mkOS (environ o) (pty_free o) (open_fds o) (f (pending o)) (written o)
       (next_pid o) (killed o).

Definition log_write (fd : nat) (data : string) (o : OS) : OS :=
  mkOS (environ o) (pty_free o) (open_fds o) (pending o)
       (written o ++ [(fd, data)]) (next_pid o) (killed o).

Definition log_kill (pid : nat) (o : OS) : OS :=
  mkOS (environ o) (pty_free o) (open_fds o) (pending o) (written o)
       (next_pid o) (killed o ++ [pid]).

(** [pty.openpty()]: two fresh descriptors, or [OSError] when the system has
    no pseudo terminal left. *)
Definition openpty (o : OS) : PyExc + (nat * nat * OS) :=
  match pty_free o with
  | O => inl OSError
  | S k =>
      let m := fresh (open_fds o) in
      let s := fresh ({[m]} ∪ open_fds o) in
      inr (m, s, mkOS (environ o) k ({[s]} ∪ ({[m]} ∪ open_fds o)) (pending o)
                      (written o) (next_pid o) (killed o))
  end.

(** [os.write(fd, data)].  [fd] is [None] when the attribute holds Python's
    [None], which [os.write] refuses with [TypeError]; a descriptor that is
    not open gives [OSError]. *)
Definition os_write (fd : option nat) (data : string) (o : OS) : PyExc + OS :=
  match fd with
  | None => inl TypeError
  | Some n => if decide (n ∈ open_fds o) then inr (log_write n data o) else inl OSError
  end.

(** What [os.read(fd, n)] does on a blocking descriptor. *)
Inductive ReadResult : Type :=
| ReadData (data : string) (o : OS)
| ReadRaises (e : PyExc)
| ReadBlocks.

Definition os_read (fd : option nat) (n : nat) (o : OS) : ReadResult :=
  match fd with
  | None => ReadRaises TypeError
  | Some k =>
      if decide (k ∈ open_fds o) then
        match pending_at o k with
        | EmptyString => ReadBlocks
        | buf => ReadData (str_take n buf) (set_pending (<[k := str_drop n buf]>) o)
        end
      else ReadRaises OSError
  end.

(** [poll.poll(0)] over the registered descriptors: is any of them readable? *)
Definition poll_ready (registered : gset nat) (o : OS) : bool :=
  bool_decide (Exists (λ fd, pending_at o fd ≠ "") (elements registered)).

(** ** pyte's screen, as far as [refresh_views] reads it *)

Record Cursor : Set := mkCursor { x : nat; y : nat }.

Record Screen : Type := mkScreen {
  display : list string;
  dirty   : gset nat;
  cursor  : Cursor
}.

(** [sc.dirty.clear()] *)
Definition dirty_clear (sc : Screen) : Screen :=
  mkScreen (display sc) ∅ (cursor sc).

(** ** Views *)

Inductive Refresh : Type :=
| FullRefresh (lines : list string) (cur : option Cursor)
| DiffRefresh (lines_dict : gmap nat string) (cur : option Cursor).

Module SublimeView.

(** The view as the processes see it.  [refreshes] is the sequence of
    redraw calls the view got, oldest first; the two geometry fields are
    what [available_columns()] and [available_lines()] answer. *)
Record t : Type := mk {
  _process          : option nat;     (* back reference, an object address *)
  sublimepty_id     : option string;  (* the view setting of that name *)
  available_columns : Z;
  available_lines   : Z;
  refreshes         : list Refresh
}.

Definition set_process (p : option nat) (sid : option string) (v : t) : t :=
  mk p sid (available_columns v) (available_lines v) (refreshes v).

Definition push (r : Refresh) (v : t) : t :=
  mk (_process v) (sublimepty_id v) (available_columns v) (available_lines v)
     (refreshes v ++ [r]).

#[global] Instance inhabited : Inhabited t := populate (mk None None 0 0 []).

End SublimeView.

(** ** Key map *)

Definition KEYMAP : gmap string string :=
  list_to_map
    [ ("enter", chr 10); ("tab", chr 9); ("f10", chr 27 ++ "[21~");
      ("space", " ");
      ("f8", "\e[[19~"); ("escape", chr 27 ++ chr 27); ("down", chr 27 ++ "[B");
      ("up", chr 27 ++ "[A"); ("right", chr 27 ++ "[C"); ("left", chr 27 ++ "[D");
      ("backspace", chr 8) ].

Definition DEFAULT_COLUMNS : Z := 80.
Definition DEFAULT_LINES : Z := 24.
Definition DEFAULT_LOCALE : string := "en_US.UTF8".

(** ** What the program imports

    pyte is a library the program imports.  Its byte stream parser is taken
    as it comes: a parser state, the state of a new [pyte.ByteStream()], the
    screen [pyte.DiffScreen(columns, lines)] starts with, and what
    [stream.feed(data)] does to the parser and to the attached screen.
    [executable] tells which argument vectors [subprocess.Popen] manages to
    run, and [uuid4_hex n] is [uuid4().hex] after [n] earlier draws. *)

Class Externals : Type := {
  StreamSt       : Type;
  new_ByteStream : StreamSt;
  new_DiffScreen : Z -> Z -> Screen;
  feed           : StreamSt -> Screen -> string -> StreamSt * Screen;
  executable     : list string -> bool;
  uuid4_hex      : nat -> string
}.

(** ** Objects and the world *)

(** The attributes [Process.__init__] sets. *)
Record Process : Type := mkProcess {
  id          : string;
  _supervisor : nat;         (* address of the supervisor *)
  _views      : list nat;    (* addresses of the attached views, in order *)
  _columns    : Z;
  _lines      : Z
}.

Section Processes.

Context `{Ext : Externals}.

(** The attributes [PtyProcess.__init__] adds. *)
Record PtyAttrs : Type := mkPty {
  _cmd     : list string;
  _env     : gmap string string;
  _cwd     : string;
  _process : option nat;     (* pid of the Popen object, [None] for None *)
  _master  : option nat;
  _slave   : option nat;
  _poll    : gset nat;       (* descriptors registered with the poll object *)
  _stream  : StreamSt;
  _screens : Screen          (* the entry 'diff' *)
}.

(** What an instance of [PtyProcess] has of the attributes of its class
    while its constructor has not run to its end: [_cmd], once the
    constructor has assigned it, and [_master] and [_slave], once [_start]
    has.  Every other attribute is missing. *)
Record Unbuilt : Type := mkUnbuilt {
  had_cmd : option (list string);
  had_fds : option (nat * nat)
}.

(** An object of class [Process].  [pty_attrs] is [Some] for an instance of
    [PtyProcess] whose constructor has run to its end.  [unbuilt] is [Some]
    for an instance of [PtyProcess] whose constructor has not: from its
    allocation on, and for good when the constructor was left by an
    exception.  Both are [None] for an instance of the base class. *)
Record Object : Type := mkObject {
  base      : Process;
  pty_attrs : option PtyAttrs;
  unbuilt   : option Unbuilt
}.

(** An object of the base class before any [__init__]. *)
Definition blank : Object := mkObject (mkProcess "" 0 [] 0 0) None None.

(** An object of class [PtyProcess] before any [__init__]. *)
Definition blank_pty : Object :=
  mkObject (mkProcess "" 0 [] 0 0) None (Some (mkUnbuilt None None)).

#[global] Instance Object_inhabited : Inhabited Object := populate blank.

Record World : Type := mkWorld {
  os          : OS;
  uuid_draws  : nat;                        (* uuid4() calls made so far *)
  supervisors : gmap nat (gmap string nat); (* Supervisor.processes, by address *)
  objects     : gmap nat Object;            (* live Process objects *)
  views       : gmap nat SublimeView.t      (* live views *)
}.

Definition obj_at (w : World) (a : nat) : Object := objects w !!! a.
Definition view_at (w : World) (v : nat) : SublimeView.t := views w !!! v.

Definition with_os (o : OS) (w : World) : World :=
  mkWorld o (uuid_draws w) (supervisors w) (objects w) (views w).
Definition with_object (a : nat) (ob : Object) (w : World) : World :=
  mkWorld (os w) (uuid_draws w) (supervisors w) (<[a := ob]> (objects w)) (views w).
Definition with_view (a : nat) (v : SublimeView.t) (w : World) : World :=
  mkWorld (os w) (uuid_draws w) (supervisors w) (objects w) (<[a := v]> (views w)).
Definition with_supervisor (a : nat) (d : gmap string nat) (w : World) : World :=
  mkWorld (os w) (uuid_draws w) (<[a := d]> (supervisors w)) (objects w) (views w).

(** ** The monad of method calls *)

Inductive Outcome (A : Type) : Type :=
| Return (a : A) (w : World)     (* normal return *)
| Raise (e : PyExc) (w : World)  (* exception, with the world at that point *)
| Blocks (w : World).            (* stuck in a blocking system call *)
#[global] Arguments Return {A} a w.
#[global] Arguments Raise {A} e w.
#[global] Arguments Blocks {A} w.

Definition Py (A : Type) : Type := World -> Outcome A.

#[global] Instance Py_ret : MRet Py := λ A a w, Return a w.
#[global] Instance Py_bind : MBind Py := λ A B k m w,
  match m w with
  | Return a w' => k a w'
  | Raise e w' => Raise e w'
  | Blocks w' => Blocks w'
  end.

Definition raise {A} (e : PyExc) : Py A := λ w, Raise e w.
Definition get_object (a : nat) : Py Object := λ w, Return (obj_at w a) w.
Definition put_object (a : nat) (ob : Object) : Py unit :=
  λ w, Return () (with_object a ob w).
Definition get_view (a : nat) : Py SublimeView.t := λ w, Return (view_at w a) w.
Definition put_view (a : nat) (v : SublimeView.t) : Py unit :=
  λ w, Return () (with_view a v w).
Definition get_os : Py OS := λ w, Return (os w) w.
Definition put_os (o : OS) : Py unit := λ w, Return () (with_os o w).

(** [for x in xs: body(x)] *)
Fixpoint for_each {A} (xs : list A) (body : A -> Py unit) : Py unit :=
  match xs with
  | [] => mret ()
  | a :: rest => body a ;; for_each rest body
  end.

(** The attributes of a [PtyProcess], for a method that reads one of them
    first.  On an instance of the base class the call ends in [missing]:
    [TypeError] for the five methods the base class declares by
    [raise NotImplemented] (which Python 2 refuses to raise),
    [AttributeError] for the methods only [PtyProcess] has.  On an instance
    of [PtyProcess] whose constructor did not finish the attribute is not
    there: [AttributeError]. *)
Definition get_pty (missing : PyExc) (self : nat) : Py PtyAttrs :=
  ob ← get_object self;
  match pty_attrs ob with
  | Some p => mret p
  | None =>
      match unbuilt ob with
      | Some _ => raise AttributeError
      | None => raise missing
      end
  end.

Definition put_pty (self : nat) (p : PtyAttrs) : Py unit :=
  ob ← get_object self;
  put_object self (mkObject (base ob) (Some p) None).

Definition put_base (self : nat) (b : Process) : Py unit :=
  ob ← get_object self;
  put_object self (mkObject b (pty_attrs ob) (unbuilt ob)).

Definition put_unbuilt (self : nat) (u : Unbuilt) : Py unit :=
  ob ← get_object self;
  put_object self (mkObject (base ob) (pty_attrs ob) (Some u)).

(** ** [Supervisor] *)

(** [Supervisor()]: a new supervisor with an empty [processes] dictionary. *)
Definition Supervisor__init__ : Py nat := λ w,
  let a := fresh (dom (supervisors w)) in
  Return a (with_supervisor a ∅ w).

(** [self.processes[process.id] = process] *)
Definition register (self process : nat) : Py unit := λ w,
  let key := id (base (obj_at w process)) in
  Return () (with_supervisor self (<[key := process]> (supervisors w !!! self)) w).

(** [Supervisor.process].  The dictionary holds weak references: an entry
    counts only while its object is alive. *)
Definition process (self : nat) (process_id : string) : Py (option nat) := λ w,
  match (supervisors w !!! self) !! process_id with
  | Some a => if decide (a ∈ dom (objects w)) then Return (Some a) w else Return None w
  | None => Return None w
  end.

(** ** [SublimeView], the calls the processes make *)

Definition full_refresh (self : nat) (lines : list string) (cur : option Cursor) : Py unit :=
  v ← get_view self;
  put_view self (SublimeView.push (FullRefresh lines cur) v).

Definition diff_refresh (self : nat) (lines_dict : gmap nat string) (cur : option Cursor)
  : Py unit :=
  v ← get_view self;
  put_view self (SublimeView.push (DiffRefresh lines_dict cur) v).

Definition _fill_stars (self : nat) (columns lines : Z) : Py unit :=
  full_refresh self (replicate (Z.to_nat lines) (str_repeat "*" (Z.to_nat columns))) None.

(** ** [Process] *)

(** A new object, [fresh] of its class. *)
Definition alloc (fresh_object : Object) : Py nat := λ w,
  let a := fresh (dom (objects w)) in
  Return a (with_object a fresh_object w).

Definition uuid4 : Py string := λ w,
  Return (uuid4_hex (uuid_draws w))
         (mkWorld (os w) (S (uuid_draws w)) (supervisors w) (objects w) (views w)).

Definition Process__init__ (self supervisor : nat) : Py unit :=
  i ← uuid4;
  put_base self (mkProcess i supervisor [] DEFAULT_COLUMNS DEFAULT_LINES);;
  register supervisor self.

(** [Process(supervisor)] *)
Definition new_Process (supervisor : nat) : Py nat :=
  self ← alloc blank;
  Process__init__ self supervisor;;
  mret self.

(** The body of [detach_view] is [pass]. *)
Definition detach_view (self view : nat) : Py unit := mret ().

(** The setter of the property [SublimeView.process]. *)
Definition set_view_process (self : nat) (new_process : option nat) : Py unit :=
  v ← get_view self;
  match SublimeView._process v with
  | Some old => detach_view old self
  | None => mret ()
  end;;
  match new_process with
  | Some a =>
      ob ← get_object a;
      v ← get_view self;
      put_view self (SublimeView.set_process (Some a) (Some (id (base ob))) v);;
      _fill_stars self (_columns (base ob)) (_lines (base ob))
  | None =>
      v ← get_view self;
      put_view self (SublimeView.set_process None None v)
  end.

Definition attach_view (self view : nat) : Py unit :=
  ob ← get_object self;
  let b := base ob in
  put_base self (mkProcess (id b) (_supervisor b) (_views b ++ [view]) (_columns b) (_lines b));;
  set_view_process view (Some self).

Definition columns (self : nat) : Py Z := ob ← get_object self; mret (_columns (base ob)).
Definition lines (self : nat) : Py Z := ob ← get_object self; mret (_lines (base ob)).

(** [for v in self._views: acc = min(acc, ask(v))] *)
Definition min_over_views (w : World) (ask : SublimeView.t -> Z) (vs : list nat) (start : Z)
  : Z :=
  fold_left (λ acc v, Z.min acc (ask (view_at w v))) vs start.

Definition available_columns (self : nat) : Py Z := λ w,
  Return (min_over_views w SublimeView.available_columns
            (_views (base (obj_at w self))) DEFAULT_COLUMNS) w.

Definition available_lines (self : nat) : Py Z := λ w,
  Return (min_over_views w SublimeView.available_lines
            (_views (base (obj_at w self))) DEFAULT_LINES) w.

(** ** [PtyProcess] *)

Definition environ_get (key : string) : Py string :=
  o ← get_os;
  match environ o !! key with
  | Some v => mret v
  | None => raise KeyError
  end.

(** [cmd or [os.environ["SHELL"]]] *)
Definition cmd_or_shell (cmd : option (list string)) : Py (list string) :=
  match cmd with
  | Some (c :: cs) => mret (c :: cs)
  | _ => sh ← environ_get "SHELL"; mret [sh]
  end.

(** The dictionary display after [env or], evaluated entry by entry. *)
Definition default_env : Py (gmap string string) :=
  logname ← environ_get "LOGNAME";
  user ← environ_get "USER";
  shell ← environ_get "SHELL";
  username ← environ_get "USERNAME";
  home ← environ_get "HOME";
  mret (list_to_map
          [ ("TERM", "linux"); ("LOGNAME", logname); ("USER", user); ("SHELL", shell);
            ("USERNAME", username); ("HOME", home); ("COLUMNS", "80"); ("LINES", "24");
            ("LC_ALL", DEFAULT_LOCALE) ]).

Definition env_or_default (env : option (gmap string string)) : Py (gmap string string) :=
  match env with
  | Some e => if decide (e = ∅) then default_env else mret e
  | None => default_env
  end.

(** [cwd or "."] *)
Definition cwd_or_dot (cwd : option string) : string :=
  match cwd with
  | Some (String c s) => String c s
  | _ => "."
  end.

Definition PtyProcess__init__ (self supervisor : nat) (cmd : option (list string))
    (env : option (gmap string string)) (cwd : option string) : Py unit :=
  Process__init__ self supervisor;;
  c ← cmd_or_shell cmd;
  ob ← get_object self;
  put_unbuilt self (mkUnbuilt (Some c) (unbuilt ob ≫= had_fds));;
  e ← env_or_default env;
  put_pty self (mkPty c e (cwd_or_dot cwd) None None None ∅ new_ByteStream
                      (new_DiffScreen DEFAULT_COLUMNS DEFAULT_LINES)).

(** [PtyProcess(supervisor, cmd, env, cwd)] *)
Definition new_PtyProcess (supervisor : nat) (cmd : option (list string))
    (env : option (gmap string string)) (cwd : option string) : Py nat :=
  self ← alloc blank_pty;
  PtyProcess__init__ self supervisor cmd env cwd;;
  mret self.

Definition set_fds (m s : option nat) (p : PtyAttrs) : PtyAttrs :=
  mkPty (_cmd p) (_env p) (_cwd p) (_process p) m s (_poll p) (_stream p) (_screens p).
Definition set_popen (pr : option nat) (p : PtyAttrs) : PtyAttrs :=
  mkPty (_cmd p) (_env p) (_cwd p) pr (_master p) (_slave p) (_poll p) (_stream p)
        (_screens p).
Definition set_poll (r : gset nat) (p : PtyAttrs) : PtyAttrs :=
  mkPty (_cmd p) (_env p) (_cwd p) (_process p) (_master p) (_slave p) r (_stream p)
        (_screens p).
Definition set_emulator (st : StreamSt) (sc : Screen) (p : PtyAttrs) : PtyAttrs :=
  mkPty (_cmd p) (_env p) (_cwd p) (_process p) (_master p) (_slave p) (_poll p) st sc.

(** [subprocess.Popen(cmd, ...)]: the pid of the child, or [OSError]. *)
Definition Popen (cmd : list string) : Py nat :=
  if executable cmd then
    o ← get_os;
    put_os (mkOS (environ o) (pty_free o) (open_fds o) (pending o) (written o)
                 (S (next_pid o)) (killed o));;
    mret (next_pid o)
  else raise OSError.

(** [_start] on an instance whose constructor did not finish: the pseudo
    terminal is opened and kept, and the call of [Popen] then asks for
    [self._cmd] or [self._env], of which one at least is missing. *)
Definition _start_unbuilt (self : nat) (u : Unbuilt) : Py unit :=
  o ← get_os;
  match openpty o with
  | inl e => raise e
  | inr (m, s, o') =>
      put_os o';;
      put_unbuilt self (mkUnbuilt (had_cmd u) (Some (m, s)));;
      raise AttributeError
  end.

Definition _start (self : nat) : Py unit :=
  ob ← get_object self;
  match pty_attrs ob, unbuilt ob with
  | None, Some u => _start_unbuilt self u
  | _, _ =>
      p ← get_pty TypeError self;
      o ← get_os;
      match openpty o with
      | inl e => raise e
      | inr (m, s, o') =>
          put_os o';;
          put_pty self (set_fds (Some m) (Some s) p);;
          pid ← Popen (_cmd p);
          p ← get_pty TypeError self;
          put_pty self (set_popen (Some pid) p);;
          p ← get_pty TypeError self;
          put_pty self (set_poll ({[m]} ∪ _poll p) p)
      end
  end.

Definition start (self : nat) : Py unit := _start self.

(** The dictionary [refresh_views] builds from the dirty set; [None] is the
    [IndexError] of [dis[lineno]]. *)
Definition dirty_lines (sc : Screen) : option (gmap nat string) :=
  list_to_map <$> mapM (λ lineno, (λ text, (lineno, text)) <$> display sc !! lineno)
                       (elements (dirty sc)).

Definition refresh_views (self : nat) : Py unit :=
  p ← get_pty AttributeError self;
  let sc := _screens p in
  match dirty_lines sc with
  | None => raise IndexError
  | Some lines_dict =>
      put_pty self (set_emulator (_stream p) (dirty_clear sc) p);;
      p ← get_pty AttributeError self;
      let cur := cursor (_screens p) in
      ob ← get_object self;
      for_each (_views (base ob)) (λ v, diff_refresh v lines_dict (Some cur))
  end.

(** One turn of the loop of [_read]. *)
Inductive Turn : Type :=
| Break                          (* the poll found nothing *)
| Next (n : nat) (w : World)     (* [n] bytes were read and fed *)
| Leave (out : Outcome nat).     (* the loop was left by an exception *)

Definition _read_turn (self : nat) (w : World) : Turn :=
  match pty_attrs (obj_at w self) with
  | None => Leave (Raise AttributeError w)
  | Some p =>
      if poll_ready (_poll p) (os w) then
        match os_read (_master p) 100 (os w) with
        | ReadData data o' =>
            let '(st, sc) := feed (_stream p) (_screens p) data in
            Next (String.length data)
                 (with_object self (mkObject (base (obj_at w self))
                                             (Some (set_emulator st sc p)) None)
                              (with_os o' w))
        | ReadRaises e => Leave (Raise e w)
        | ReadBlocks => Leave (Blocks w)
        end
      else Break
  end.

(** Bytes waiting on the master descriptor of [self]: what the loop uses up. *)
Definition backlog (self : nat) (w : World) : nat :=
  match pty_attrs (obj_at w self) with
  | Some p =>
      match _master p with
      | Some m => String.length (pending_at (os w) m)
      | None => O
      end
  | None => O
  end.

(** A value together with the equation that says where it comes from. *)
Definition inspect {A : Type} (a : A) : {b : A | a = b} := exist _ a eq_refl.

(** The loop [while True: ...] of [_read], with the bytes counted so far.
    Every turn that goes on takes at least one byte off the backlog. *)
Equations? _read_loop (self : nat) (read : nat) (w : World) : Outcome nat
  by wf (backlog self w) lt :=
  _read_loop self read w with inspect (_read_turn self w) := {
    | exist _ Break _ => Return read w
    | exist _ (Next n w') turn => _read_loop self (read + n) w'
    | exist _ (Leave out) _ => out }.
Proof.
  clear _read_loop.
  assert (Hdrop : ∀ k s, (String.length (str_drop k s) <= String.length s)%nat).
  { clear. induction k as [|k IH]; intros [|c s]; simpl; try lia.
    specialize (IH s). lia. }
  unfold _read_turn in turn. unfold backlog.
  destruct (pty_attrs (obj_at w self)) as [p|] eqn:Hp; [|done].
  destruct (poll_ready _ _); [|done].
  unfold os_read in turn.
  destruct (_master p) as [m|] eqn:Hm; [|done].
  destruct (decide _); [|done].
  destruct (pending_at (os w) m) as [|c buf] eqn:Hbuf; [done|].
  remember (str_drop 100 (String c buf)) as rest eqn:Hrest.
  destruct (feed _ _ _) as [st sc]. injection turn as _ <-.
  unfold obj_at, with_object, with_os; simpl.
  rewrite lookup_total_insert_eq; simpl. rewrite Hm.
  unfold pending_at; simpl. rewrite lookup_insert_eq; simpl.
  subst rest. change (str_drop 100 (String c buf)) with (str_drop 99 buf).
  specialize (Hdrop 99%nat buf). lia.
Qed.

Definition _read (self : nat) : Py nat :=
  read ← _read_loop self 0%nat;
  (if decide (read = 0%nat) then mret () else refresh_views self);;
  mret read.

(** [self._master], as [send_bytes] reads it.  An instance whose
    constructor did not finish has the attribute only after a [_start]. *)
Definition get_master (self : nat) : Py (option nat) :=
  ob ← get_object self;
  match pty_attrs ob, unbuilt ob with
  | None, Some u =>
      match had_fds u with
      | Some (m, _) => mret (Some m)
      | None => raise AttributeError
      end
  | _, _ => p ← get_pty TypeError self; mret (_master p)
  end.

Definition send_bytes (self : nat) (bytes : string) : Py unit :=
  master ← get_master self;
  let bytes := match KEYMAP !! bytes with
               | Some code => code
               | None => bytes
               end in
  o ← get_os;
  match os_write master bytes o with
  | inl e => raise e
  | inr o' => put_os o'
  end.

Definition stop (self : nat) : Py unit :=
  p ← get_pty TypeError self;
  match _process p with
  | None => raise AttributeError        (* [None.kill()] *)
  | Some pid =>
      o ← get_os;
      put_os (log_kill pid o);;
      p ← get_pty TypeError self;
      put_pty self (set_popen None p)
  end.

Definition is_running (self : nat) : Py bool :=
  p ← get_pty TypeError self;
  mret (bool_decide (_process p ≠ None)).

(** The second definition of [send_keypress] in the class body, the one
    that stays. *)
Definition send_keypress (self : nat) (key : string) (ctrl alt shift super : bool)
  : Py unit :=
  send_bytes self key;;
  _read self;;
  mret ().

(** [Supervisor.read_all]: the live processes of the dictionary. *)
Definition read_all (self : nat) : Py unit := λ w,
  for_each (filter (λ a, a ∈ dom (objects w)) (map_to_list (supervisors w !!! self)).*2)
           (λ a, _read a;; mret ()) w.

(** The child of a session writes [data] to its terminal: the bytes queue
    up on the master descriptor.  This is the environment, not the program. *)
Definition child_writes (master : nat) (data : string) (w : World) : World :=
  with_os (set_pending (<[master := pending_at (os w) master ++ data]>) (os w)) w.

(** The last strong reference to the object at [a] is dropped: the object
    dies, and with it the entries of the weak dictionaries that held it. *)
Definition released (a : nat) (w : World) : World :=
  mkWorld (os w) (uuid_draws w) (supervisors w) (delete a (objects w)) (views w).

(** The world of a method call that returned, or the one it left behind. *)
Definition world_of {A} (out : Outcome A) : World :=
  match out with
  | Return _ w => w
  | Raise _ w => w
  | Blocks w => w
  end.

Definition value_of {A} (out : Outcome A) : option A :=
  match out with
  | Return a _ => Some a
  | _ => None
  end.

Definition raised {A} (out : Outcome A) : option PyExc :=
  match out with
  | Raise e _ => Some e
  | _ => None
  end.

End Processes.

(** ** A small emulator and a small system, to run the methods on

    The emulator is a line printer: it writes what it is fed at the cursor on
    line 0 and marks that line dirty; its parser state counts the bytes it
    has seen.  A new screen has every line dirty, as in pyte. *)

Definition printer_screen (columns lines : Z) : Screen :=
  mkScreen (replicate (Z.to_nat lines) (str_repeat " " (Z.to_nat columns)))
           (list_to_set (seq 0 (Z.to_nat lines))) (mkCursor 0 0).

Definition printer_feed (seen : nat) (sc : Screen) (data : string) : nat * Screen :=
  let col := x (cursor sc) in
  let line := default "" (display sc !! 0%nat) in
  ((seen + String.length data)%nat,
   mkScreen (<[0%nat := str_take col line ++ data ++ str_drop (col + String.length data) line]>
               (display sc))
            ({[0%nat]} ∪ dirty sc)
            (mkCursor (col + String.length data) 0)).

Definition hex_digit (n : nat) : string :=
  default "0" (nth_error ["0";"1";"2";"3";"4";"5";"6";"7";"8";"9";"a";"b";"c";"d";"e";"f"] n).

(** Thirty-two hexadecimal digits, different for different draws below
    [16 ^ 4]. *)
Definition counter_hex (n : nat) : string :=
  str_repeat "0" 28 ++ hex_digit (n / 4096 mod 16) ++ hex_digit (n / 256 mod 16)
                    ++ hex_digit (n / 16 mod 16) ++ hex_digit (n mod 16).

#[local] Instance printer : Externals := {|
  StreamSt := nat;
  new_ByteStream := 0%nat;
  new_DiffScreen := printer_screen;
  feed := printer_feed;
  executable := λ cmd, bool_decide (cmd = ["/bin/sh"] ∨ cmd = ["/bin/echo"; "hi"]);
  uuid4_hex := counter_hex
|}.

Definition login_environ : gmap string string :=
  list_to_map [ ("SHELL", "/bin/sh"); ("LOGNAME", "ada"); ("USER", "ada");
                ("USERNAME", "ada"); ("HOME", "/home/ada") ].

Definition boot : World :=
  mkWorld (mkOS login_environ 2 (list_to_set [0;1;2]%nat) ∅ [] 100 [])
          0 ∅ ∅
          (list_to_map [ (0%nat, SublimeView.mk None None 100 40 []);
                         (1%nat, SublimeView.mk None None 60 20 []) ]).

(** A supervisor, at address 0. *)
Definition supervised : World := world_of (Supervisor__init__ boot).

(** A supervisor and one shell session, not started. *)
Definition created : World :=
  world_of ((sup ← Supervisor__init__; new_PtyProcess sup None None None) boot).

Definition started : World := world_of (start 0%nat created).

Definition stopped : World := world_of (stop 0%nat started).

(** View 0, which reports 100 by 40, attached to the session. *)
Definition one_view : World := world_of (attach_view 0%nat 0%nat created).

(** Then view 1, which reports 60 by 20. *)
Definition two_views : World := world_of (attach_view 0%nat 1%nat one_view).

(** The session with both views attached, started; the descriptors of its
    terminal are 3 and 4. *)
Definition session : World := world_of (start 0%nat two_views).

(** The shell has printed a prompt. *)
Definition prompted : World := child_writes 3 "$ " session.

(** ** Notions the statements use *)

Section Notions.

Context `{Ext : Externals}.

(** [m] is the least element of [xs]. *)
Definition least_of (m : Z) (xs : list Z) : Prop :=
  m ∈ xs ∧ ∀ k, k ∈ xs → m <= k.

Definition reported_columns (w : World) (self : nat) : list Z :=
  (λ v, SublimeView.available_columns (view_at w v)) <$> _views (base (obj_at w self)).

Definition reported_lines (w : World) (self : nat) : list Z :=
  (λ v, SublimeView.available_lines (view_at w v)) <$> _views (base (obj_at w self)).

(** The geometry invariant as the specification words it: the least of what
    the attached views report, the defaults when no view is attached. *)
Definition least_over_views (w : World) (self : nat) (cols rows : Z) : Prop :=
  match _views (base (obj_at w self)) with
  | [] => cols = DEFAULT_COLUMNS ∧ rows = DEFAULT_LINES
  | _ => least_of cols (reported_columns w self) ∧ least_of rows (reported_lines w self)
  end.

(** The master descriptor of a session, when it has one and it is open. *)
Definition open_master (w : World) (self : nat) : option nat :=
  p ← pty_attrs (obj_at w self);
  m ← _master p;
  if decide (m ∈ open_fds (os w)) then Some m else None.

(** The descriptors the poll object of a session watches. *)
Definition polled (w : World) (self : nat) : gset nat :=
  from_option _poll ∅ (pty_attrs (obj_at w self)).

(** The parser and the screen of a session. *)
Definition emulator (w : World) (self : nat) : option (StreamSt * Screen) :=
  (λ p, (_stream p, _screens p)) <$> pty_attrs (obj_at w self).

(** Feeding chunk after chunk. *)
Definition feed_all (chunks : list string) (e : StreamSt * Screen) : StreamSt * Screen :=
  foldl (λ e data, feed e.1 e.2 data) e chunks.

(** One redraw call for every entry of a list of views, in order. *)
Definition push_all (r : Refresh) (vs : list nat) (store : gmap nat SublimeView.t)
  : gmap nat SublimeView.t :=
  foldl (λ st v, <[v := SublimeView.push r (st !!! v)]> st) store vs.

Definition with_views (store : gmap nat SublimeView.t) (w : World) : World :=
  mkWorld (os w) (uuid_draws w) (supervisors w) (objects w) store.

(** What a construction from [w] to [w'] with the new object at [self] has
    to have done to count as registered: the object is new and alive, its
    id is the draw of [uuid4] the construction made, and the supervisor
    answers that id with the object. *)
Definition newly_registered (w w' : World) (supervisor self : nat) : Prop :=
  (self ∉ dom (objects w)) ∧
  (self ∈ dom (objects w')) ∧
  id (base (obj_at w' self)) = uuid4_hex (uuid_draws w) ∧
  uuid_draws w' = S (uuid_draws w) ∧
  process supervisor (id (base (obj_at w' self))) w' = Return (Some self) w'.



Definition in_environ (w : World) (key : string) : Prop := key ∈ dom (environ (os w)).

(** The chunks of a read, put end to end. *)
Definition join (chunks : list string) : string := foldr append "" chunks.

(** What a key token stands for on the wire. *)
Definition resolves_to (key code : string) : Prop :=
  KEYMAP !! key = Some code ∨ (KEYMAP !! key = None ∧ code = key).

End Notions.

(** ** Sequences of calls *)

Section Calls.

Context `{Ext : Externals}.

(** What a program that uses the module can do, one call at a time, and what
    the child of a session does in between. *)
Inductive Call : Type :=
| NewSupervisor
| NewProcess (supervisor : nat)
| NewPtyProcess (supervisor : nat) (cmd : option (list string))
                (env : option (gmap string string)) (cwd : option string)
| AttachView (self view : nat)
| DetachView (self view : nat)
| Start (self : nat)
| Stop (self : nat)
| SendBytes (self : nat) (bytes : string)
| SendKeypress (self : nat) (key : string) (ctrl alt shift super : bool)
| Read (self : nat)
| RefreshViews (self : nat)
| ReadAll (supervisor : nat)
| ChildWrites (master : nat) (data : string).

(** The world after a call, whether it returned or raised (the caller may
    catch the exception and go on). *)
Definition perform (c : Call) (w : World) : World :=
  match c with
  | NewSupervisor => world_of (Supervisor__init__ w)
  | NewProcess supervisor => world_of (new_Process supervisor w)
  | NewPtyProcess supervisor cmd env cwd => world_of (new_PtyProcess supervisor cmd env cwd w)
  | AttachView self view => world_of (attach_view self view w)
  | DetachView self view => world_of (detach_view self view w)
  | Start self => world_of (start self w)
  | Stop self => world_of (stop self w)
  | SendBytes self bytes => world_of (send_bytes self bytes w)
  | SendKeypress self key ctrl alt shift super =>
      world_of (send_keypress self key ctrl alt shift super w)
  | Read self => world_of (_read self w)
  | RefreshViews self => world_of (refresh_views self w)
  | ReadAll supervisor => world_of (read_all supervisor w)
  | ChildWrites master data => child_writes master data w
  end.

Definition perform_all (cs : list Call) (w : World) : World :=
  foldl (λ w c, perform c w) w cs.

(** From [w] to [w'] no descriptor was closed and no poll object lost a
    registration. *)
Definition keeps_descriptors (w w' : World) : Prop :=
  open_fds (os w) ⊆ open_fds (os w') ∧ ∀ a, polled w a ⊆ polled w' a.

(** From [w] to [w'] every list of attached views was at most extended. *)
Definition keeps_views (w w' : World) : Prop :=
  ∀ a, _views (base (obj_at w a)) `prefix_of` _views (base (obj_at w' a)).

(** From [w] to [w'] every live object stayed alive with the id, the
    supervisor and the geometry attributes it had. *)
Definition keeps_identity (w w' : World) : Prop :=
  dom (objects w) ⊆ dom (objects w') ∧
  ∀ a, a ∈ dom (objects w) →
       id (base (obj_at w' a)) = id (base (obj_at w a)) ∧
       _supervisor (base (obj_at w' a)) = _supervisor (base (obj_at w a)) ∧
       _columns (base (obj_at w' a)) = _columns (base (obj_at w a)) ∧
       _lines (base (obj_at w' a)) = _lines (base (obj_at w a)).

Definition grows (w w' : World) : Prop :=
  keeps_descriptors w w' ∧ keeps_views w w' ∧ keeps_identity w w'.

(** The variables the default environment of a session copies from
    [os.environ], and the ones it sets itself. *)
Definition inherited : list string := ["LOGNAME"; "USER"; "SHELL"; "USERNAME"; "HOME"].

Definition fixed_env : gmap string string :=
  list_to_map [ ("TERM", "linux"); ("COLUMNS", "80"); ("LINES", "24");
                ("LC_ALL", "en_US.UTF8") ].

Definition is_default_env (w : World) (e : gmap string string) : Prop :=
  dom e = list_to_set inherited ∪ dom fixed_env ∧
  map_Forall (λ key value, e !! key = Some value) fixed_env ∧
  Forall (λ key, e !! key = environ (os w) !! key) inherited.

End Calls.

(** The session started a second time: descriptors 5 and 6, a second child. *)
Definition restarted : World := world_of (start 0%nat started).

(** A system that has run out of pseudo terminals. *)
Definition exhausted : World :=
  with_os (mkOS login_environ 0 (list_to_set [0;1;2]%nat) ∅ [] 100 []) created.

(** A session for a command that cannot be run. *)
Definition misnamed : World :=
  world_of ((sup ← Supervisor__init__;
             new_PtyProcess sup (Some ["/bin/nothing"]) None None) boot).

(** A supervisor with one object of the base class. *)
Definition plain : World := world_of (new_Process 0%nat supervised).

(** A second shell session, at address 1, beside the first. *)
Definition pair : World := world_of (new_PtyProcess 0%nat None None None created).

(** The session started twice, after its first child has printed a prompt. *)
Definition stale : World := child_writes 3 "$ " restarted.

(** A system where [USERNAME] is not set, and the session whose
    constructor gave up for that: the object at address 0. *)
Definition nameless : World :=
  world_of (Supervisor__init__
              (mkWorld (mkOS (delete "USERNAME" login_environ) 2 (list_to_set [0;1;2]%nat)
                             ∅ [] 100 [])
                       0 ∅ ∅ ∅)).

Definition abandoned : World := world_of (new_PtyProcess 0%nat None None None nameless).



(** The session with a screen of one row that has rows 0 and 30 dirty. *)
Definition garbled : World :=
  match pty_attrs (obj_at session 0) with
  | Some p =>
      with_object 0%nat
        (mkObject (base (obj_at session 0))
           (Some (set_emulator 2%nat (mkScreen ["$ "] {[0%nat; 30%nat]} (mkCursor 2 0)) p))
           None)
        session
  | None => session
  end.

(** * Properties *)

Section Properties.

Context `{Ext : Externals}.

Implicit Types (w : World) (self view : nat).

(** Unfolds the plumbing of the monad. *)
Ltac run :=
  repeat progress
    (unfold mbind, mret, Py_bind, Py_ret, raise, get_object, put_object, get_view,
       put_view, get_os, put_os, get_pty, put_pty, put_base, put_unbuilt, get_master in *;
     simpl in *).

Lemma obj_at_with_object w a ob : obj_at (with_object a ob w) a = ob.
Proof. unfold obj_at, with_object; simpl. by rewrite lookup_total_insert_eq. Qed.

Lemma obj_at_with_object_ne w a b ob : a ≠ b → obj_at (with_object a ob w) b = obj_at w b.
Proof. intros. unfold obj_at, with_object; simpl. by rewrite lookup_total_insert_ne. Qed.

Lemma obj_at_with_os w o a : obj_at (with_os o w) a = obj_at w a.
Proof. done. Qed.

Lemma obj_at_with_view w v x a : obj_at (with_view v x w) a = obj_at w a.
Proof. done. Qed.

Lemma view_at_with_view w v x : view_at (with_view v x w) v = x.
Proof. unfold view_at, with_view; simpl. by rewrite lookup_total_insert_eq. Qed.

Lemma view_at_with_view_ne w v v' x : v ≠ v' → view_at (with_view v x w) v' = view_at w v'.
Proof. intros. unfold view_at, with_view; simpl. by rewrite lookup_total_insert_ne. Qed.

(** The same without computing: calls of methods stay as they are. *)
Ltac binds := repeat progress (unfold mbind, mret, Py_bind, Py_ret in *).

(** Reads of the stores after writes to them. *)
Ltac stores :=
  repeat progress
    (rewrite ?obj_at_with_object, ?obj_at_with_os, ?obj_at_with_view, ?view_at_with_view;
     simpl).

Lemma least_of_min_over_views w ask vs start :
  least_of (min_over_views w ask vs start) (start :: ((λ v, ask (view_at w v)) <$> vs)).
Proof.
  revert start. induction vs as [|v vs IH]; intros start; simpl.
  - split; [left|]. intros k Hk. apply list_elem_of_singleton in Hk. lia.
  - destruct (IH (Z.min start (ask (view_at w v)))) as [Hin Hle].
    fold (min_over_views w ask vs (Z.min start (ask (view_at w v)))) in *.
    split.
    + apply elem_of_cons in Hin as [Hin|Hin].
      * rewrite Hin. destruct (Z.min_spec start (ask (view_at w v))) as [[_ ->]|[_ ->]].
        -- left.
        -- right; left.
      * by do 2 right.
    + intros k Hk.
      assert (Hmin := Hle (Z.min start (ask (view_at w v))) ltac:(left)).
      apply elem_of_cons in Hk as [->|Hk]; [lia|].
      apply elem_of_cons in Hk as [->|Hk]; [lia|].
      apply Hle. by right.
Qed.

(** ** Geometry *)

(** C1, as amended.  What a session reports as available columns and lines
    is the least of the default (80, 24) and of what its attached views
    report: never more than the default.  With no view attached it is the
    default, and with views reporting (100, 40) and (60, 20) it is
    (60, 20).  The calls change nothing. *)
Theorem C1_geometry_least_of_default_and_views w self :
  ∃ cols rows,
    available_columns self w = Return cols w ∧
    available_lines self w = Return rows w ∧
    least_of cols (DEFAULT_COLUMNS :: reported_columns w self) ∧
    least_of rows (DEFAULT_LINES :: reported_lines w self) ∧
    (_views (base (obj_at w self)) = [] → cols = 80 ∧ rows = 24) ∧
    (reported_columns w self = [100; 60] → reported_lines w self = [40; 20] →
     cols = 60 ∧ rows = 20).
Proof.
  eexists _, _. split; [reflexivity|]. split; [reflexivity|].
  pose proof (least_of_min_over_views w SublimeView.available_columns
                (_views (base (obj_at w self))) DEFAULT_COLUMNS) as Hc.
  pose proof (least_of_min_over_views w SublimeView.available_lines
                (_views (base (obj_at w self))) DEFAULT_LINES) as Hl.
  fold (reported_columns w self) in Hc. fold (reported_lines w self) in Hl.
  split; [exact Hc|]. split; [exact Hl|]. split.
  - intros Hnil. unfold reported_columns, reported_lines in *. rewrite Hnil. done.
  - intros Hcols Hrows. rewrite Hcols in Hc. rewrite Hrows in Hl.
    destruct Hc as [Hc1 Hc2], Hl as [Hl1 Hl2].
    assert (H60 := Hc2 60 ltac:(do 2 right; left)).
    assert (H20 := Hl2 20 ltac:(do 2 right; left)).
    assert (H80 := Hc2 80 ltac:(left)). assert (H24 := Hl2 24 ltac:(left)).
    assert (H100 := Hc2 100 ltac:(right; left)). assert (H40 := Hl2 40 ltac:(right; left)).
    unfold DEFAULT_COLUMNS, DEFAULT_LINES in *.
    rewrite !elem_of_cons, elem_of_nil in Hc1, Hl1. lia.
Qed.

(** ** Attaching and detaching *)

Lemma attach_view_returns w self view :
  ∃ w', attach_view self view w = Return () w' ∧
        _views (base (obj_at w' self)) = (_views (base (obj_at w self)) ++ [view])%list ∧
        SublimeView._process (view_at w' view) = Some self.
Proof.
  unfold attach_view, set_view_process, detach_view, _fill_stars, full_refresh. run.
  destruct (SublimeView._process (view_at _ view)); simpl;
    (eexists; split; [reflexivity|]);
    rewrite !obj_at_with_view, !obj_at_with_object, !view_at_with_view; done.
Qed.

(** C2, on the code.  [detach_view] changes nothing at all: after a view was
    attached and then detached it is still in the list of attached views of
    the session and still refers back to the session. *)
Theorem C2_detach_view_does_nothing w self view :
  let w1 := world_of (attach_view self view w) in
  detach_view self view w1 = Return () w1 ∧
  view ∈ _views (base (obj_at w1 self)) ∧
  SublimeView._process (view_at w1 view) = Some self.
Proof.
  destruct (attach_view_returns w self view) as (w' & -> & Hviews & Hback). simpl.
  split; [done|]. split; [|done].
  rewrite Hviews. set_solver.
Qed.

(** ** Writing *)

Lemma resolves_to_default key : resolves_to key (default key (KEYMAP !! key)).
Proof. unfold resolves_to. destruct (KEYMAP !! key); simpl; auto. Qed.

Lemma send_bytes_run w self p bytes :
  pty_attrs (obj_at w self) = Some p →
  send_bytes self bytes w =
    match os_write (_master p) (default bytes (KEYMAP !! bytes)) (os w) with
    | inl e => Raise e w
    | inr o' => Return () (with_os o' w)
    end.
Proof.
  intros Hp. unfold send_bytes. run. rewrite !Hp. simpl.
  destruct (KEYMAP !! bytes); simpl; by destruct (os_write _ _ _).
Qed.

Lemma open_master_inv w self m :
  open_master w self = Some m →
  ∃ p, pty_attrs (obj_at w self) = Some p ∧ _master p = Some m ∧ m ∈ open_fds (os w).
Proof.
  unfold open_master. destruct (pty_attrs _) as [p|] eqn:Hp; [|done]. simpl.
  destruct (_master p) as [k|] eqn:Hk; [|done]. simpl.
  destruct (decide _) as [Hin|]; [|done]. intros [= ->]. by exists p.
Qed.

Lemma send_bytes_open w self m bytes :
  open_master w self = Some m →
  send_bytes self bytes w =
    Return () (with_os (log_write m (default bytes (KEYMAP !! bytes)) (os w)) w).
Proof.
  intros (p & Hp & Hm & Hopen)%open_master_inv.
  rewrite (send_bytes_run _ _ _ _ Hp), Hm. simpl. by rewrite decide_True.
Qed.

(** C3, as amended.  On a session with an open master descriptor
    [send_bytes(raw)] makes one write to that descriptor and changes nothing
    else.  The bytes written are [raw] itself when [raw] is not a name of
    the key map, and the key map's entry for [raw] when it is one. *)
Theorem C3_send_bytes_writes_through_keymap w self m raw :
  open_master w self = Some m →
  ∃ code,
    send_bytes self raw w = Return () (with_os (log_write m code (os w)) w) ∧
    resolves_to raw code ∧
    (raw ∉ dom KEYMAP → code = raw).
Proof.
  intros Hm. exists (default raw (KEYMAP !! raw)).
  split; [by apply send_bytes_open|]. split; [apply resolves_to_default|].
  intros Hnot%not_elem_of_dom. by rewrite Hnot.
Qed.

(** C9.  The four modifier flags of [send_keypress] have no influence: two
    calls in the same state with the same key end in the same outcome, bytes
    written to the terminal included, whatever the flags. *)
Theorem C9_modifiers_do_not_interfere w self key
    (ctrl alt shift super ctrl' alt' shift' super' : bool) :
  send_keypress self key ctrl alt shift super w =
  send_keypress self key ctrl' alt' shift' super' w ∧
  written (os (world_of (send_keypress self key ctrl alt shift super w))) =
  written (os (world_of (send_keypress self key ctrl' alt' shift' super' w))).
Proof. done. Qed.

(** C5.  On a session with an open master descriptor [send_keypress]
    writes what the key stands for, the entry of the key map when the key is
    in it and the key itself when it is not, and goes on with [_read] in the
    state the write left; "enter" stands for a line feed. *)
Theorem C5_send_keypress_writes_then_reads w self m key (ctrl alt shift super : bool) :
  open_master w self = Some m →
  ∃ code,
    resolves_to key code ∧
    (key = "enter" → code = chr 10) ∧
    send_keypress self key ctrl alt shift super w =
      (_read self ;; mret ()) (with_os (log_write m code (os w)) w).
Proof.
  intros Hm. exists (default key (KEYMAP !! key)).
  split; [apply resolves_to_default|]. split; [by intros ->|].
  unfold send_keypress. unfold mbind at 1, Py_bind at 1.
  by rewrite (send_bytes_open _ _ _ _ Hm).
Qed.

(** ** Stopping *)

(** C4, as amended.  On a session that holds a child, [stop()] kills the
    child and returns; on a session that holds none, never started or
    stopped before, it raises [AttributeError] and changes nothing.  Either
    way [is_running()] answers false afterwards. *)
Theorem C4_stop_kills_once w self p :
  pty_attrs (obj_at w self) = Some p →
  let out := stop self w in
  value_of (is_running self (world_of out)) = Some false ∧
  match _process p with
  | Some pid => ∃ w', out = Return () w' ∧ killed (os w') = (killed (os w) ++ [pid])%list
  | None => out = Raise AttributeError w
  end.
Proof.
  intros Hp. unfold stop, is_running. run. rewrite Hp.
  destruct (_process p) as [pid|] eqn:Hpid; simpl.
  - rewrite obj_at_with_os, Hp. stores. split; [done|]. eauto.
  - rewrite Hp. simpl. rewrite Hpid. done.
Qed.

Lemma stop_keeps_master w self w' :
  stop self w = Return () w' → open_master w' self = open_master w self.
Proof.
  unfold stop. run.
  destruct (pty_attrs (obj_at w self)) as [p|] eqn:Hp; [|by destruct (unbuilt _)].
  destruct (_process p); [|done]. simpl. rewrite obj_at_with_os, Hp.
  intros [= <-]. unfold open_master. stores. by rewrite Hp.
Qed.

(** C8, as amended.  A write on a session whose master attribute is still
    [None] (never started) ends in [TypeError], and one on a descriptor that
    is not open in [OSError]; [send_bytes] and [send_keypress] pass the
    exception on and leave every part of the state as it was.  [stop()] does
    not close the master descriptor: on a session that was stopped
    [send_bytes] writes as on a running one. *)
Theorem C8_write_without_descriptor w self p raw (ctrl alt shift super : bool) :
  pty_attrs (obj_at w self) = Some p →
  (_master p = None →
   send_bytes self raw w = Raise TypeError w ∧
   send_keypress self raw ctrl alt shift super w = Raise TypeError w) ∧
  (∀ fd, _master p = Some fd → fd ∉ open_fds (os w) →
   send_bytes self raw w = Raise OSError w ∧
   send_keypress self raw ctrl alt shift super w = Raise OSError w) ∧
  (∀ m w', open_master w self = Some m → stop self w = Return () w' →
   ∃ code, resolves_to raw code ∧
           send_bytes self raw w' = Return () (with_os (log_write m code (os w')) w')).
Proof.
  intros Hp. split; [|split].
  - intros Hm. unfold send_keypress. unfold mbind at 1, Py_bind at 1.
    rewrite (send_bytes_run _ _ _ _ Hp), Hm. done.
  - intros fd Hm Hclosed. unfold send_keypress. unfold mbind at 1, Py_bind at 1.
    rewrite (send_bytes_run _ _ _ _ Hp), Hm. simpl. by rewrite decide_False.
  - intros m w' Hm Hstop. exists (default raw (KEYMAP !! raw)).
    split; [apply resolves_to_default|].
    apply send_bytes_open. by rewrite (stop_keeps_master _ _ _ Hstop).
Qed.

(** ** Reading *)

Lemma str_take_drop n s : str_take n s ++ str_drop n s = s.
Proof.
  revert s. induction n as [|n IH]; intros [|c s]; simpl; try done.
  change (String c (str_take n s ++ str_drop n s) = String c s). by rewrite IH.
Qed.

Lemma str_take_length n s : (String.length (str_take n s) <= n)%nat.
Proof.
  revert s. induction n as [|n IH]; intros [|c s]; simpl; try lia.
  specialize (IH s). lia.
Qed.

Lemma str_length_app s t :
  String.length (s ++ t) = (String.length s + String.length t)%nat.
Proof.
  induction s as [|c s IH]; [done|].
  change (S (String.length (s ++ t)) = S (String.length s + String.length t)).
  by rewrite IH.
Qed.

Lemma _read_loop_step self read w :
  _read_loop self read w =
    match _read_turn self w with
    | Break => Return read w
    | Next n w' => _read_loop self (read + n) w'
    | Leave out => out
    end.
Proof.
  simp _read_loop. unfold inspect.
  generalize (@eq_refl _ (_read_turn self w)).
  generalize (_read_turn self w) at 2 4 5.
  intros t e. destruct t; by simp _read_loop.
Qed.

Lemma poll_ready_singleton m o :
  poll_ready {[m]} o = bool_decide (pending_at o m ≠ "").
Proof.
  unfold poll_ready. rewrite elements_singleton.
  apply bool_decide_ext. rewrite Exists_cons, Exists_nil. tauto.
Qed.

(** A turn of the loop on a session that polls its own open master. *)
Lemma _read_turn_own_master w self p m :
  pty_attrs (obj_at w self) = Some p → _master p = Some m →
  m ∈ open_fds (os w) → _poll p = {[m]} →
  _read_turn self w =
    match pending_at (os w) m with
    | "" => Break
    | buf =>
        let e := feed (_stream p) (_screens p) (str_take 100 buf) in
        Next (String.length (str_take 100 buf))
             (with_object self
                (mkObject (base (obj_at w self)) (Some (set_emulator e.1 e.2 p)) None)
                (with_os (set_pending (<[m := str_drop 100 buf]>) (os w)) w))
    end.
Proof.
  intros Hp Hm Hopen Hpoll. unfold _read_turn. rewrite Hp, Hpoll, poll_ready_singleton.
  unfold os_read. rewrite Hm, decide_True by done.
  destruct (pending_at (os w) m) as [|c buf] eqn:Hbuf.
  - by rewrite bool_decide_eq_false_2 by (intros H; by apply H).
  - rewrite bool_decide_eq_true_2 by done.
    by destruct (feed _ _ _).
Qed.

(** The loop of [_read] on a session that polls its own open master: it
    takes the waiting bytes in chunks of at most 100, feeds them in order
    and leaves with their number. *)
Lemma _read_loop_drains k : ∀ w self p m read,
  pty_attrs (obj_at w self) = Some p → _master p = Some m →
  m ∈ open_fds (os w) → _poll p = {[m]} →
  (String.length (pending_at (os w) m) <= k)%nat →
  ∃ chunks w',
    _read_loop self read w =
      Return (read + String.length (pending_at (os w) m))%nat w' ∧
    join chunks = pending_at (os w) m ∧
    Forall (λ c, (0 < String.length c <= 100)%nat) chunks ∧
    emulator w' self = Some (feed_all chunks (_stream p, _screens p)) ∧
    open_master w' self = Some m ∧ polled w' self = {[m]} ∧
    base (obj_at w' self) = base (obj_at w self) ∧
    pending_at (os w') m = "" ∧ views w' = views w ∧
    (pending_at (os w) m = "" → w' = w).
Proof.
  induction k as [|k IH]; intros w self p m read Hp Hm Hopen Hpoll Hlen;
    rewrite _read_loop_step, (_read_turn_own_master _ _ _ _ Hp Hm Hopen Hpoll);
    destruct (pending_at (os w) m) as [|c buf] eqn:Hbuf; simpl in Hlen; try lia.
  1,2: exists [], w; rewrite Nat.add_0_r;
       unfold emulator, open_master, polled; rewrite Hp; simpl; rewrite Hm; simpl;
       rewrite decide_True by done; done.
  cbv beta iota zeta.
  set (data := str_take 100 (String c buf)).
  set (rest := str_drop 100 (String c buf)).
  set (e := feed (_stream p) (_screens p) data).
  set (w1 := with_object self _ _).
  assert (Hsplit : data ++ rest = String c buf) by apply str_take_drop.
  assert (Hdata : (0 < String.length data <= 100)%nat).
  { split; [simpl; lia|apply str_take_length]. }
  assert (Hsum : (String.length data + String.length rest = S (String.length buf))%nat).
  { rewrite <- str_length_app, Hsplit. done. }
  assert (Hrest : pending_at (os w1) m = rest).
  { unfold w1, pending_at; simpl. by rewrite lookup_insert_eq. }
  destruct (IH w1 self (set_emulator e.1 e.2 p) m (read + String.length data)%nat)
    as (chunks & w' & Hloop & Hjoin & Hall & Hemu & Hom & Hpolled & Hbase & Hpend & Hviews & _).
  { unfold w1. by stores. }
  { done. }
  { done. }
  { done. }
  { rewrite Hrest. lia. }
  exists (data :: chunks), w'. rewrite Hrest in Hloop, Hjoin.
  split; [rewrite Hloop; f_equal; cbn [String.length]; lia|].
  split; [change (data ++ join chunks = String c buf); by rewrite Hjoin|].
  split; [by constructor|].
  split.
  { rewrite Hemu. cbn [feed_all foldl set_emulator _stream _screens fst snd].
    subst e. by destruct (feed _ _ _). }
  split; [done|]. split; [done|].
  split; [rewrite Hbase; unfold w1; by stores|].
  done.
Qed.

(** ** Refreshing *)

Lemma for_each_diff_refresh vs d cur w :
  for_each vs (λ v, diff_refresh v d cur) w =
    Return () (with_views (push_all (DiffRefresh d cur) vs (views w)) w).
Proof.
  revert w. induction vs as [|v vs IH]; intros w.
  - by destruct w.
  - cbn [for_each]. unfold diff_refresh. run. by rewrite IH.
Qed.

Lemma dirty_lines_clear sc : dirty_lines (dirty_clear sc) = Some ∅.
Proof. unfold dirty_lines. simpl. by rewrite elements_empty. Qed.

Lemma refresh_views_run w self p :
  pty_attrs (obj_at w self) = Some p →
  refresh_views self w =
    match dirty_lines (_screens p) with
    | None => Raise IndexError w
    | Some d =>
        let w1 := with_object self
                    (mkObject (base (obj_at w self))
                       (Some (set_emulator (_stream p) (dirty_clear (_screens p)) p))
                       None) w in
        Return () (with_views
                     (push_all (DiffRefresh d (Some (cursor (_screens p))))
                               (_views (base (obj_at w self))) (views w)) w1)
    end.
Proof.
  intros Hp. unfold refresh_views. run. rewrite Hp.
  destruct (dirty_lines (_screens p)) as [d|]; [|done].
  stores. by rewrite for_each_diff_refresh.
Qed.

(** C7.  When [refresh_views] has returned, the dirty set of the screen is
    empty and the display is what it was.  A second [refresh_views] with no
    feed in between returns too, builds the empty dictionary, leaves parser
    and screen alone, and so sends every attached view a diff redraw with
    no line in it. *)
Theorem C7_second_refresh_carries_no_lines w self w1 :
  refresh_views self w = Return () w1 →
  ∃ st sc,
    emulator w1 self = Some (st, sc) ∧
    dirty sc = ∅ ∧
    (∃ sc0, emulator w self = Some (st, sc0) ∧ display sc = display sc0) ∧
    dirty_lines sc = Some ∅ ∧
    ∃ w2,
      refresh_views self w1 = Return () w2 ∧
      emulator w2 self = Some (st, sc) ∧
      views w2 = push_all (DiffRefresh ∅ (Some (cursor sc)))
                          (_views (base (obj_at w1 self))) (views w1).
Proof.
  intros Hfirst.
  destruct (pty_attrs (obj_at w self)) as [p|] eqn:Hp.
  2: { unfold refresh_views in Hfirst. run. rewrite Hp in Hfirst.
       by destruct (unbuilt _). }
  rewrite (refresh_views_run _ _ _ Hp) in Hfirst.
  destruct (dirty_lines (_screens p)) as [d|]; [|done].
  injection Hfirst as <-.
  exists (_stream p), (dirty_clear (_screens p)).
  assert (Hp1 : ∀ store w0 ob, pty_attrs (obj_at (with_views store (with_object self ob w0)) self)
                               = pty_attrs ob).
  { intros. unfold with_views, obj_at; simpl. by rewrite lookup_total_insert_eq. }
  split; [unfold emulator; by rewrite Hp1|].
  split; [done|].
  split; [exists (_screens p); unfold emulator; by rewrite Hp|].
  split; [apply dirty_lines_clear|].
  eexists. split.
  - erewrite refresh_views_run by (rewrite Hp1; reflexivity).
    cbn [set_emulator _screens _stream]. rewrite dirty_lines_clear. reflexivity.
  - split; [|done]. unfold emulator, obj_at. simpl. by rewrite lookup_total_insert_eq.
Qed.


(** ** Construction *)

Lemma Process__init__registers w supervisor (ob0 : Object) :
  let self := fresh (dom (objects w)) in
  ∃ w', Process__init__ self supervisor (with_object self ob0 w) = Return () w' ∧
        newly_registered w w' supervisor self ∧
        pty_attrs (obj_at w' self) = pty_attrs ob0 ∧
        os w' = os w ∧
        unbuilt (obj_at w' self) = unbuilt ob0.
Proof.
  intros self. unfold Process__init__, uuid4, register. run.
  eexists. split; [reflexivity|].
  unfold newly_registered, process, obj_at, with_supervisor, with_object. simpl.
  rewrite !lookup_total_insert_eq. simpl. rewrite lookup_insert_eq.
  rewrite decide_True by set_solver.
  repeat split; try done; [apply is_fresh|set_solver].
Qed.


Lemma not_in_environ w key rest :
  environ (os w) !! key = None → ¬ Forall (in_environ w) (key :: rest).
Proof.
  intros Hnone Hall. apply Forall_cons in Hall as [Hin _].
  apply elem_of_dom in Hin as [? Hin]. unfold in_environ in *. congruence.
Qed.

Lemma environ_get_run key w :
  environ_get key w =
    match environ (os w) !! key with
    | Some v => Return v w
    | None => Raise KeyError w
    end.
Proof. unfold environ_get. run. by destruct (environ (os w) !! key). Qed.

Lemma cmd_or_shell_outcome cmd w :
  let needed := match cmd with Some (_ :: _) => [] | _ => ["SHELL"] end in
  (Forall (in_environ w) needed ∧ ∃ c, cmd_or_shell cmd w = Return c w) ∨
  (¬ Forall (in_environ w) needed ∧ cmd_or_shell cmd w = Raise KeyError w).
Proof.
  assert (Hshell :
    (Forall (in_environ w) ["SHELL"] ∧
     ∃ c, (environ_get "SHELL" ≫= λ sh, mret [sh]) w = Return c w) ∨
    (¬ Forall (in_environ w) ["SHELL"] ∧
     (environ_get "SHELL" ≫= λ sh, mret [sh]) w = Raise KeyError w)).
  { binds. rewrite environ_get_run.
    destruct (environ (os w) !! "SHELL") eqn:Hkey.
    - left. split; [|by eexists]. repeat constructor. by apply elem_of_dom.
    - right. split; [by apply not_in_environ|done]. }
  destruct cmd as [[|c cs]|]; simpl; try exact Hshell.
  left. split; [constructor|by eexists].
Qed.

Lemma default_env_outcome w :
  let needed := ["LOGNAME"; "USER"; "SHELL"; "USERNAME"; "HOME"] in
  (Forall (in_environ w) needed ∧ ∃ e, default_env w = Return e w) ∨
  (¬ Forall (in_environ w) needed ∧ default_env w = Raise KeyError w).
Proof.
  intros needed. unfold default_env, needed. binds.
  assert (Hdrop : ∀ key rest,
    ¬ Forall (in_environ w) rest → ¬ Forall (in_environ w) (key :: rest)).
  { intros key rest Hrest Hall. by apply Forall_cons in Hall as [_ ?]. }
  repeat (rewrite environ_get_run;
          match goal with
          | |- context [environ (os w) !! ?key] =>
              let Hkey := fresh "Hkey" in
              destruct (environ (os w) !! key) eqn:Hkey;
              [|right; split; [auto 10 using not_in_environ|done]]
          end).
  left. split; [|by eexists].
  repeat (constructor; [by apply elem_of_dom|]). constructor.
Qed.

Lemma env_or_default_outcome env w :
  let needed := match env with
                | Some e =>
                    if decide (e = ∅)
                    then ["LOGNAME"; "USER"; "SHELL"; "USERNAME"; "HOME"] else []
                | None => ["LOGNAME"; "USER"; "SHELL"; "USERNAME"; "HOME"]
                end in
  (Forall (in_environ w) needed ∧ ∃ e, env_or_default env w = Return e w) ∨
  (¬ Forall (in_environ w) needed ∧ env_or_default env w = Raise KeyError w).
Proof.
  destruct env as [e|]; simpl; [destruct (decide (e = ∅))|];
    try apply default_env_outcome.
  left. split; [constructor|by eexists].
Qed.

(** [PtyProcess(...)] step by step, after the constructor of the base
    class has run. *)
Lemma new_PtyProcess_run w supervisor cmd env cwd w0 :
  let self := fresh (dom (objects w)) in
  Process__init__ self supervisor (with_object self blank_pty w) = Return () w0 →
  new_PtyProcess supervisor cmd env cwd w =
    match cmd_or_shell cmd w0 with
    | Return c _ =>
        let w1 := with_object self
                    (mkObject (base (obj_at w0 self)) (pty_attrs (obj_at w0 self))
                              (Some (mkUnbuilt (Some c) (unbuilt (obj_at w0 self) ≫= had_fds))))
                    w0 in
        match env_or_default env w1 with
        | Return e _ =>
            Return self
              (with_object self
                 (mkObject (base (obj_at w1 self))
                    (Some (mkPty c e (cwd_or_dot cwd) None None None ∅ new_ByteStream
                                 (new_DiffScreen DEFAULT_COLUMNS DEFAULT_LINES)))
                    None)
                 w1)
        | Raise x _ => Raise x w1
        | Blocks _ => Blocks w1
        end
    | Raise x _ => Raise x w0
    | Blocks _ => Blocks w0
    end.
Proof.
  intros self Hinit. unfold new_PtyProcess, PtyProcess__init__, alloc. binds.
  fold self. rewrite Hinit.
  destruct (cmd_or_shell_outcome cmd w0) as [(_ & c & ->)|(_ & ->)]; [|done].
  repeat progress (unfold get_object, put_unbuilt, put_object; binds). cbv zeta.
  match goal with
  | |- context [env_or_default env ?w1] =>
      destruct (env_or_default_outcome env w1) as [(_ & e & ->)|(_ & ->)]; [|done]
  end.
  repeat progress (unfold put_pty, get_object, put_object; binds). done.
Qed.


(** The supervisor does not keep a process alive: once the process is
    released, its id is answered with [None]. *)
Lemma process_after_release w supervisor process_id a :
  (supervisors w !!! supervisor) !! process_id = Some a →
  process supervisor process_id (released a w) = Return None (released a w).
Proof.
  intros Hentry. unfold process, released. simpl. rewrite Hentry.
  rewrite decide_False; [done|]. rewrite dom_delete_L.
  intros [_ Hnot]%elem_of_difference. by apply Hnot, elem_of_singleton.
Qed.

(** ** Starting *)

(** [start()] on a session that was not started before, when a pseudo
    terminal is to be had and the command can be run: the session holds a
    child, its master descriptor is open and is the one descriptor its poll
    object watches. *)
Lemma start_opens_master w self p :
  pty_attrs (obj_at w self) = Some p →
  _poll p = ∅ →
  pty_free (os w) ≠ 0%nat →
  executable (_cmd p) = true →
  ∃ w', start self w = Return () w' ∧
        open_master w' self = Some (fresh (open_fds (os w))) ∧
        polled w' self = {[fresh (open_fds (os w))]} ∧
        is_running self w' = Return true w' ∧
        base (obj_at w' self) = base (obj_at w self) ∧
        views w' = views w.
Proof.
  intros Hp Hpoll Hfree Hexec.
  unfold start, _start, Popen, openpty, is_running. run. rewrite !Hp. simpl.
  destruct (pty_free (os w)) as [|k]; [done|]. simpl. rewrite Hexec. simpl.
  stores. eexists. split; [reflexivity|].
  unfold open_master, polled. stores.
  rewrite decide_True by set_solver. rewrite Hpoll.
  repeat split; try done. by rewrite (right_id_L ∅ (∪)).
Qed.

(** * Further properties of the code *)

(** ** The supervisor *)

(** X1.  [register] followed by [process]: a live process is found under
    its id, whatever was registered under that id before (the later
    registration wins), and the answers for all other ids stay what they
    were.  A lookup never raises and never changes anything; an id that is
    not in the dictionary is answered with [None]. *)
Theorem register_then_process w supervisor a :
  a ∈ dom (objects w) →
  ∃ w',
    register supervisor a w = Return () w' ∧
    process supervisor (id (base (obj_at w a))) w' = Return (Some a) w' ∧
    (∀ other, other ≠ id (base (obj_at w a)) →
       value_of (process supervisor other w') = value_of (process supervisor other w)) ∧
    (∀ any, ∃ answer, process supervisor any w' = Return answer w') ∧
    (∀ missing, (supervisors w' !!! supervisor) !! missing = None →
       process supervisor missing w' = Return None w').
Proof.
  intros Halive. unfold register. eexists. split; [reflexivity|].
  unfold process, with_supervisor, obj_at. simpl.
  rewrite lookup_total_insert_eq. split; [|split; [|split]].
  - rewrite lookup_insert_eq. by rewrite decide_True.
  - intros other Hother. rewrite lookup_insert_ne by done.
    destruct ((supervisors w !!! supervisor) !! other) as [b|]; [|done].
    by destruct (decide (b ∈ dom (objects w))).
  - intros any.
    destruct (<[_ := a]> (supervisors w !!! supervisor) !! any) as [b|]; [|by eexists].
    destruct (decide (b ∈ dom (objects w))); by eexists.
  - intros missing ->. done.
Qed.

(** X2.  The supervisor holds its processes weakly: once the last
    reference to a registered process is released, the id it was registered
    under is answered with [None]. *)
Theorem process_of_released w supervisor process_id a :
  (supervisors w !!! supervisor) !! process_id = Some a →
  process supervisor process_id (released a w) = Return None (released a w).
Proof. apply process_after_release. Qed.

(** X3.  [read_all] on a supervisor with one registered process: when the
    process is dead nothing happens; when it is alive the sweep is one
    [_read] of it, and for an object of the base class [Process], which has
    no [_read], that ends in [AttributeError]. *)
Theorem read_all_one_process w supervisor process_id a :
  supervisors w !!! supervisor = {[process_id := a]} →
  (a ∉ dom (objects w) → read_all supervisor w = Return () w) ∧
  (a ∈ dom (objects w) → read_all supervisor w = (_read a ;; mret ()) w) ∧
  (a ∈ dom (objects w) → pty_attrs (obj_at w a) = None →
   read_all supervisor w = Raise AttributeError w).
Proof.
  intros Hone. unfold read_all. rewrite Hone, map_to_list_singleton. simpl.
  assert (Hlive : a ∈ dom (objects w) → read_all supervisor w = (_read a ;; mret ()) w).
  { intros Halive. unfold read_all. rewrite Hone, map_to_list_singleton. simpl.
    rewrite filter_cons_True by done. rewrite filter_nil. cbn [for_each]. binds.
    by destruct (_read a w). }
  unfold read_all in Hlive. rewrite Hone, map_to_list_singleton in Hlive. simpl in Hlive.
  split; [|split].
  - intros Hdead. by rewrite filter_cons_False, filter_nil by done.
  - exact Hlive.
  - intros Halive Hbase. rewrite (Hlive Halive). unfold _read. binds.
    rewrite _read_loop_step. unfold _read_turn. by rewrite Hbase.
Qed.

(** ** Views *)

Lemma attach_view_run w self view :
  ∃ w', attach_view self view w = Return () w' ∧
        os w' = os w ∧ supervisors w' = supervisors w ∧ uuid_draws w' = uuid_draws w ∧
        dom (objects w) ⊆ dom (objects w') ∧
        (∀ a, a ≠ self → obj_at w' a = obj_at w a) ∧
        obj_at w' self =
          mkObject (mkProcess (id (base (obj_at w self))) (_supervisor (base (obj_at w self)))
                              (_views (base (obj_at w self)) ++ [view])%list
                              (_columns (base (obj_at w self))) (_lines (base (obj_at w self))))
                   (pty_attrs (obj_at w self)) (unbuilt (obj_at w self)) ∧
        (∀ v, v ≠ view → view_at w' v = view_at w v) ∧
        view_at w' view =
          SublimeView.push
            (FullRefresh (replicate (Z.to_nat (_lines (base (obj_at w self))))
                                    (str_repeat "*" (Z.to_nat (_columns (base (obj_at w self))))))
                         None)
            (SublimeView.set_process (Some self) (Some (id (base (obj_at w self))))
                                     (view_at w view)).
Proof.
  unfold attach_view, set_view_process, detach_view, _fill_stars, full_refresh. run.
  destruct (SublimeView._process (view_at _ view)); simpl;
    (eexists; split; [reflexivity|]); simpl;
    (repeat split; try done;
     [set_solver
     |intros a Ha; unfold obj_at; simpl; by rewrite lookup_total_insert_ne
     |by stores
     |intros v Hv; unfold view_at; simpl; by rewrite !lookup_total_insert_ne
     |by stores]).
Qed.

(** X4.  [attach_view] always returns.  The view is appended to the list of
    the session and refers back to it; its setting [sublimepty_id] is the id
    of the session; and it is sent one full redraw, of [_lines] rows of
    [_columns] asterisks, which is neither the screen of the emulator nor
    sized by the view.  What the view reports as its geometry is not
    touched. *)
Theorem attach_view_fills_stars w self view :
  ∃ w',
    attach_view self view w = Return () w' ∧
    _views (base (obj_at w' self)) = (_views (base (obj_at w self)) ++ [view])%list ∧
    SublimeView._process (view_at w' view) = Some self ∧
    SublimeView.sublimepty_id (view_at w' view) = Some (id (base (obj_at w self))) ∧
    SublimeView.refreshes (view_at w' view) =
      (SublimeView.refreshes (view_at w view) ++
       [FullRefresh (replicate (Z.to_nat (_lines (base (obj_at w self))))
                               (str_repeat "*" (Z.to_nat (_columns (base (obj_at w self))))))
                    None])%list ∧
    SublimeView.available_columns (view_at w' view)
      = SublimeView.available_columns (view_at w view) ∧
    SublimeView.available_lines (view_at w' view)
      = SublimeView.available_lines (view_at w view).
Proof.
  destruct (attach_view_run w self view)
    as (w' & Hrun & _ & _ & _ & _ & _ & Hself & _ & Hview).
  exists w'. rewrite Hself, Hview. done.
Qed.

(** X5.  A view that is attached to a second session stays in the list of
    the first: the setter of [view.process] calls [detach_view] on the old
    session, which removes nothing.  The view is then in both lists, and
    refers back to the second session only. *)
Theorem reattached_view_stays_in_old_list w first second view :
  first ≠ second →
  let w2 := world_of (attach_view second view (world_of (attach_view first view w))) in
  view ∈ _views (base (obj_at w2 first)) ∧
  view ∈ _views (base (obj_at w2 second)) ∧
  SublimeView._process (view_at w2 view) = Some second.
Proof.
  intros Hne.
  destruct (attach_view_run w first view)
    as (w1 & -> & _ & _ & _ & _ & _ & Hfirst & _ & _).
  cbn [world_of].
  destruct (attach_view_run w1 second view)
    as (w2 & -> & _ & _ & _ & _ & Hothers & Hsecond & _ & Hview).
  simpl. rewrite (Hothers first Hne), Hfirst, Hsecond, Hview. simpl.
  split; [|split; [|done]]; apply elem_of_app; right; apply list_elem_of_singleton; done.
Qed.

(** ** Redraws *)

Lemma push_all_at r vs store v :
  push_all r vs store !!! v =
    SublimeView.mk (SublimeView._process (store !!! v)) (SublimeView.sublimepty_id (store !!! v))
                   (SublimeView.available_columns (store !!! v))
                   (SublimeView.available_lines (store !!! v))
                   (SublimeView.refreshes (store !!! v)
                    ++ replicate (length (filter (λ a, a = v) vs)) r)%list.
Proof.
  revert store. induction vs as [|a vs IH]; intros store.
  - simpl. rewrite app_nil_r. by destruct (store !!! v).
  - change (push_all r (a :: vs) store)
      with (push_all r vs (<[a := SublimeView.push r (store !!! a)]> store)).
    rewrite IH.
    destruct (decide (a = v)) as [->|Hne].
    + rewrite lookup_total_insert_eq, filter_cons_True by done. simpl.
      by rewrite <- app_assoc.
    + by rewrite lookup_total_insert_ne, filter_cons_False by done.
Qed.

(** X6.  When [refresh_views] returns, every view got the same diff redraw
    once for each time it occurs in the list of the session, so a view that
    was attached twice is redrawn twice and a view that is not in the list
    is left alone.  The redraw carries the dictionary of the dirty lines and
    the cursor of the screen; nothing else of a view changes. *)
Theorem refresh_views_one_redraw_per_attachment w self w' :
  refresh_views self w = Return () w' →
  ∃ st sc d,
    emulator w self = Some (st, sc) ∧
    dirty_lines sc = Some d ∧
    ∀ v,
      let times := length (filter (λ a, a = v) (_views (base (obj_at w self)))) in
      SublimeView.refreshes (view_at w' v) =
        (SublimeView.refreshes (view_at w v)
         ++ replicate times (DiffRefresh d (Some (cursor sc))))%list ∧
      SublimeView._process (view_at w' v) = SublimeView._process (view_at w v) ∧
      SublimeView.available_columns (view_at w' v)
        = SublimeView.available_columns (view_at w v) ∧
      SublimeView.available_lines (view_at w' v)
        = SublimeView.available_lines (view_at w v).
Proof.
  intros Hrun.
  destruct (pty_attrs (obj_at w self)) as [p|] eqn:Hp.
  2: { unfold refresh_views in Hrun. run. rewrite Hp in Hrun.
       by destruct (unbuilt _). }
  rewrite (refresh_views_run _ _ _ Hp) in Hrun.
  destruct (dirty_lines (_screens p)) as [d|] eqn:Hd; [|done].
  injection Hrun as <-.
  exists (_stream p), (_screens p), d.
  split; [unfold emulator; by rewrite Hp|]. split; [done|].
  intros v times. unfold view_at at 1 3 5 7. cbn [views with_views].
  rewrite push_all_at. done.
Qed.

Lemma mapM_rows (rows : list string) (l : list nat) (k : list (nat * string)) :
  mapM (λ n, (λ text, (n, text)) <$> rows !! n) l = Some k →
  k.*1 = l ∧ ∀ n text, (n, text) ∈ k → rows !! n = Some text.
Proof.
  revert k. induction l as [|n l IH]; intros k; simpl.
  - intros [= <-]. split; [done|]. intros n text Hin. by apply elem_of_nil in Hin.
  - destruct (rows !! n) as [text|] eqn:Hrow; simpl; [|done].
    destruct (mapM _ l) as [k'|]; simpl; [|done].
    intros [= <-]. destruct (IH k' eq_refl) as [Hkeys Hrows].
    split; [by rewrite fmap_cons, Hkeys|].
    intros n' text' [[= -> ->]|Hin]%elem_of_cons; [done|by apply Hrows].
Qed.

(** X7.  The dictionary [refresh_views] builds, when every dirty line
    number is a row of the display: its keys are exactly the dirty line
    numbers and each maps to the row of that number. *)
Theorem refresh_views_dictionary (sc : Screen) :
  (∀ n, n ∈ dirty sc → (n < length (display sc))%nat) →
  ∃ d, dirty_lines sc = Some d ∧
       dom d = dirty sc ∧
       ∀ n, n ∈ dirty sc → d !! n = display sc !! n.
Proof.
  intros Hrows.
  assert (Hsome : is_Some (mapM (λ n, (λ text, (n, text)) <$> display sc !! n)
                                (elements (dirty sc)))).
  { apply mapM_is_Some, Forall_forall. intros n Hn%elem_of_elements. simpl.
    destruct (lookup_lt_is_Some_2 (display sc) n (Hrows n Hn)) as [text ->]. by eexists. }
  destruct Hsome as [k Hk]. destruct (mapM_rows _ _ _ Hk) as [Hkeys Hvals].
  exists (list_to_map k). unfold dirty_lines. rewrite Hk. simpl.
  split; [done|]. split.
  - rewrite dom_list_to_map_L, Hkeys. apply list_to_set_elements_L.
  - intros n Hn.
    destruct (lookup_lt_is_Some_2 (display sc) n (Hrows n Hn)) as [text Htext].
    rewrite Htext. apply elem_of_list_to_map_1.
    + rewrite Hkeys. apply NoDup_elements.
    + assert (Hin : n ∈ k.*1) by (rewrite Hkeys; by apply elem_of_elements).
      apply list_elem_of_fmap in Hin as ([n' text'] & -> & Hin). simpl in *.
      rewrite (Hvals _ _ Hin) in Htext. by injection Htext as <-.
Qed.

(** X8.  When some dirty line number is past the end of the display,
    [refresh_views] ends in the [IndexError] of [dis[lineno]] and has
    changed nothing: the dirty set is not cleared and no view is redrawn. *)
Theorem refresh_views_row_out_of_range w self p n :
  pty_attrs (obj_at w self) = Some p →
  n ∈ dirty (_screens p) → (length (display (_screens p)) <= n)%nat →
  refresh_views self w = Raise IndexError w.
Proof.
  intros Hp Hn Hpast. rewrite (refresh_views_run _ _ _ Hp).
  assert (Hnone : dirty_lines (_screens p) = None); [|by rewrite Hnone].
  unfold dirty_lines.
  assert (Hm : mapM (λ n, (λ text, (n, text)) <$> display (_screens p) !! n)
                    (elements (dirty (_screens p))) = None); [|by rewrite Hm].
  apply mapM_None, Exists_exists. exists n. split; [by apply elem_of_elements|].
  by rewrite (lookup_ge_None_2 (display (_screens p)) n Hpast).
Qed.

(** ** Starting, again *)

(** X9.  [start()] when no pseudo terminal is to be had: [OSError] from
    [pty.openpty()], and nothing has changed. *)
Theorem start_without_terminal w self p :
  pty_attrs (obj_at w self) = Some p →
  pty_free (os w) = 0%nat →
  start self w = Raise OSError w.
Proof.
  intros Hp Hfree. unfold start, _start, openpty. run. rewrite !Hp. simpl.
  by rewrite Hfree.
Qed.

(** X10.  [start()] for a command that cannot be run: [OSError] from
    [Popen], after the pseudo terminal was opened.  The two descriptors stay
    open and are kept in [_master] and [_slave], no child is held, and the
    master is not registered with the poll object. *)
Theorem start_command_not_run w self p :
  pty_attrs (obj_at w self) = Some p →
  pty_free (os w) ≠ 0%nat →
  executable (_cmd p) = false →
  ∃ w' p',
    start self w = Raise OSError w' ∧
    pty_attrs (obj_at w' self) = Some p' ∧
    _master p' = Some (fresh (open_fds (os w))) ∧
    _slave p' = Some (fresh ({[fresh (open_fds (os w))]} ∪ open_fds (os w))) ∧
    _process p' = _process p ∧
    _poll p' = _poll p ∧
    open_fds (os w') =
      {[fresh ({[fresh (open_fds (os w))]} ∪ open_fds (os w))]}
      ∪ ({[fresh (open_fds (os w))]} ∪ open_fds (os w)) ∧
    fresh (open_fds (os w)) ∉ open_fds (os w).
Proof.
  intros Hp Hfree Hexec. unfold start, _start, Popen, openpty. run. rewrite !Hp. simpl.
  destruct (pty_free (os w)) as [|k]; [done|]. simpl. rewrite Hexec. simpl.
  eexists _, _. split; [reflexivity|]. stores.
  repeat split; try done. apply is_fresh.
Qed.

(** X11.  A second [start()] on a running session opens a new pseudo
    terminal and runs a new child.  The first child is not killed, the
    first master stays open, and it stays registered with the poll object
    beside the new one, while [_master] is the new one. *)
Theorem second_start_keeps_first_terminal w self p m pid :
  pty_attrs (obj_at w self) = Some p →
  _master p = Some m → m ∈ open_fds (os w) → _process p = Some pid →
  pty_free (os w) ≠ 0%nat →
  executable (_cmd p) = true →
  ∃ w' p',
    start self w = Return () w' ∧
    pty_attrs (obj_at w' self) = Some p' ∧
    _master p' = Some (fresh (open_fds (os w))) ∧
    fresh (open_fds (os w)) ≠ m ∧
    _poll p' = {[fresh (open_fds (os w))]} ∪ _poll p ∧
    _process p' = Some (next_pid (os w)) ∧
    killed (os w') = killed (os w) ∧
    m ∈ open_fds (os w') ∧
    pending (os w') = pending (os w).
Proof.
  intros Hp Hm Hopen Hpid Hfree Hexec.
  unfold start, _start, Popen, openpty. run. rewrite !Hp. simpl.
  destruct (pty_free (os w)) as [|k]; [done|]. simpl. rewrite Hexec. simpl.
  stores. eexists _, _. split; [reflexivity|]. stores.
  repeat split; try done.
  - intros Heq. apply (is_fresh (open_fds (os w))). by rewrite Heq.
  - set_solver.
Qed.

(** ** Reading, again *)

Lemma poll_ready_true registered o fd :
  fd ∈ registered → pending_at o fd ≠ "" → poll_ready registered o = true.
Proof.
  intros Hin Hdata. unfold poll_ready. apply bool_decide_eq_true_2, Exists_exists.
  exists fd. split; [by apply elem_of_elements|done].
Qed.

Lemma poll_ready_false registered o :
  (∀ fd, fd ∈ registered → pending_at o fd = "") → poll_ready registered o = false.
Proof.
  intros Hidle. unfold poll_ready. apply bool_decide_eq_false_2.
  intros (fd & Hin%elem_of_elements & Hdata)%Exists_exists. by apply Hdata, Hidle.
Qed.

(** X12.  [_read] when no descriptor of the poll object has anything to
    read: it returns 0 and changes nothing.  This is so for a session that
    was never started too, whose poll object watches nothing: no
    exception. *)
Theorem _read_idle w self p :
  pty_attrs (obj_at w self) = Some p →
  (∀ fd, fd ∈ _poll p → pending_at (os w) fd = "") →
  _read self w = Return 0%nat w.
Proof.
  intros Hp Hidle. unfold _read. binds. rewrite _read_loop_step. unfold _read_turn.
  by rewrite Hp, (poll_ready_false _ _ Hidle).
Qed.

(** X13.  [_read] polls every descriptor that was ever registered but
    reads from [_master] only.  When an older descriptor has data and the
    master has none (a session started twice, whose first child has
    written), the poll answers and [os.read] on the master waits: the call
    does not return, and nothing was changed or redrawn. *)
Theorem _read_blocks_on_stale_descriptor w self p m stale :
  pty_attrs (obj_at w self) = Some p →
  _master p = Some m → m ∈ open_fds (os w) →
  pending_at (os w) m = "" →
  stale ∈ _poll p → pending_at (os w) stale ≠ "" →
  _read self w = Blocks w.
Proof.
  intros Hp Hm Hopen Hnone Hstale Hdata.
  unfold _read. binds. rewrite _read_loop_step. unfold _read_turn, os_read.
  rewrite Hp, (poll_ready_true _ _ _ Hstale Hdata), Hm, decide_True by done.
  by rewrite Hnone.
Qed.

(** X14.  [stop()] kills the child and nothing more: the master stays open
    and registered, and what the child had written is still there.  A
    [_read] after [stop()] takes all of it, as on a running session. *)
Theorem stop_leaves_terminal_readable w self m w' :
  open_master w self = Some m →
  polled w self = {[m]} →
  stop self w = Return () w' →
  open_master w' self = Some m ∧
  polled w' self = {[m]} ∧
  pending (os w') = pending (os w) ∧
  emulator w' self = emulator w self ∧
  ∃ w'', _read_loop self 0 w' = Return (String.length (pending_at (os w) m)) w'' ∧
         pending_at (os w'') m = "".
Proof.
  intros Hopen Hpolled Hstop.
  assert (Hopen' : open_master w' self = Some m) by by rewrite (stop_keeps_master _ _ _ Hstop).
  destruct (open_master_inv _ _ _ Hopen) as (p & Hp & Hm & Hfd).
  unfold stop in Hstop. run. rewrite Hp in Hstop.
  destruct (_process p) as [pid|]; [|done]. simpl in Hstop.
  rewrite obj_at_with_os, Hp in Hstop. injection Hstop as <-.
  assert (Hp' : pty_attrs (obj_at (with_object self
                  (mkObject (base (obj_at (with_os (log_kill pid (os w)) w) self))
                            (Some (set_popen None p)) None)
                  (with_os (log_kill pid (os w)) w)) self) = Some (set_popen None p))
    by by stores.
  assert (Hpoll : _poll p = {[m]}).
  { unfold polled in Hpolled. by rewrite Hp in Hpolled. }
  split; [done|]. split; [unfold polled; by rewrite Hp'|].
  split; [done|]. split; [unfold emulator; by rewrite Hp', Hp|].
  destruct (_read_loop_drains (String.length (pending_at (os w) m)) _ self _ m 0 Hp')
    as (chunks & w'' & Hloop & _ & _ & _ & _ & _ & _ & Hpend & _); try done.
  exists w''. split; [exact Hloop|exact Hpend].
Qed.

(** ** The key map and the constructor *)

(** X15.  What a key of the key map stands for is never itself the name of
    a key, so [send_bytes] sends it as it is: resolving twice is resolving
    once. *)
Theorem keymap_codes_are_not_keys key code :
  KEYMAP !! key = Some code →
  KEYMAP !! code = None ∧
  ∀ w self m, open_master w self = Some m →
    send_bytes self code w = Return () (with_os (log_write m code (os w)) w).
Proof.
  intros Hkey.
  assert (Hall : map_Forall (λ _ c, KEYMAP !! c = None) KEYMAP).
  { apply map_Forall_to_list. vm_compute. repeat constructor. }
  assert (Hnone := Hall _ _ Hkey). simpl in Hnone.
  split; [done|]. intros w self m Hm.
  by rewrite (send_bytes_open _ _ _ _ Hm), Hnone.
Qed.

Lemma default_env_value w e w' :
  default_env w = Return e w' → w' = w ∧ is_default_env w e.
Proof.
  unfold default_env. binds.
  repeat (rewrite environ_get_run;
          match goal with
          | |- context [environ (os w) !! ?key] =>
              let Hkey := fresh "Hkey" in
              destruct (environ (os w) !! key) eqn:Hkey; [|done]
          end).
  intros [= <- <-]. split; [done|]. unfold is_default_env, inherited, fixed_env.
  split; [|split].
  - rewrite !dom_list_to_map_L. simpl. set_solver.
  - apply map_Forall_to_list. vm_compute map_to_list.
    repeat (constructor; [by simplify_map_eq|]). constructor.
  - repeat (constructor; [by simplify_map_eq|]). constructor.
Qed.

(** X16.  The session a returning [PtyProcess(supervisor, cmd, env, cwd)]
    builds holds no child and no descriptor, watches nothing, and has a new
    80 by 24 screen.  Its command is [cmd], or the one word [$SHELL] when
    [cmd] is missing or empty.  Its environment is [env] as given, or, when
    [env] is missing or empty, nine variables: TERM, COLUMNS, LINES and
    LC_ALL set by the constructor and LOGNAME, USER, SHELL, USERNAME and
    HOME copied from [os.environ]; nothing else is inherited.  An empty
    command list, an empty environment and an empty working directory count
    as missing. *)
Theorem constructed_session_attributes w supervisor cmd env cwd :
  new_PtyProcess supervisor (Some []) (Some ∅) (Some "") w =
    new_PtyProcess supervisor None None None w ∧
  ∀ self w', new_PtyProcess supervisor cmd env cwd w = Return self w' →
    ∃ p, pty_attrs (obj_at w' self) = Some p ∧
         _process p = None ∧ _master p = None ∧ _slave p = None ∧ _poll p = ∅ ∧
         _stream p = new_ByteStream ∧
         _screens p = new_DiffScreen 80 24 ∧
         match cmd with
         | Some (c :: cs) => _cmd p = c :: cs
         | _ => ∃ sh, environ (os w) !! "SHELL" = Some sh ∧ _cmd p = [sh]
         end ∧
         match env with
         | Some e => if decide (e = ∅) then is_default_env w (_env p) else _env p = e
         | None => is_default_env w (_env p)
         end ∧
         _cwd p = match cwd with
                  | Some (String c s) => String c s
                  | _ => "."
                  end.
Proof.
  split.
  { unfold new_PtyProcess, PtyProcess__init__, env_or_default. by rewrite decide_True. }
  intros self w'.
  destruct (Process__init__registers w supervisor blank_pty) as (w0 & Hinit & _ & _ & Hos & _).
  rewrite (new_PtyProcess_run _ _ _ _ _ _ Hinit).
  assert (Hcmd : ∀ c w1, cmd_or_shell cmd w0 = Return c w1 →
            match cmd with
            | Some (c' :: cs) => c = c' :: cs
            | _ => ∃ sh, environ (os w) !! "SHELL" = Some sh ∧ c = [sh]
            end).
  { intros c w1. unfold cmd_or_shell. binds.
    destruct cmd as [[|c' cs]|]; try rewrite environ_get_run, Hos;
      try destruct (environ (os w) !! "SHELL") as [sh|]; try done;
      intros [= <- <-]; eauto. }
  assert (Henv : ∀ w1 e w2, os w1 = os w → env_or_default env w1 = Return e w2 →
            match env with
            | Some e' => if decide (e' = ∅) then is_default_env w e else e = e'
            | None => is_default_env w e
            end).
  { intros w1 e w2 Hos1. unfold env_or_default.
    assert (Hdefault : default_env w1 = Return e w2 → is_default_env w e).
    { intros [-> Hd]%default_env_value.
      unfold is_default_env in *. by rewrite <- Hos1. }
    destruct env as [e'|]; [destruct (decide (e' = ∅))|]; try exact Hdefault.
    by intros [= <- <-]. }
  destruct (cmd_or_shell cmd w0) as [c w1| |] eqn:Hc; try done.
  assert (Hcmd' := Hcmd c w1 eq_refl). cbv zeta.
  match goal with
  | |- context [env_or_default env ?w1] =>
      destruct (env_or_default env w1) as [e w2| |] eqn:He; try done;
      assert (Henv' := Henv w1 e w2 Hos He)
  end.
  intros [= <- <-]. eexists. rewrite obj_at_with_object. split; [reflexivity|].
  simpl. repeat split; done.
Qed.

(** ** What no call undoes *)

Lemma grows_refl w : grows w w.
Proof.
  split; [split|split; [|split]]; try reflexivity; intros a; try reflexivity.
  by intros.
Qed.

Lemma grows_trans w1 w2 w3 : grows w1 w2 → grows w2 w3 → grows w1 w3.
Proof.
  intros ((Hfd & Hpoll) & Hviews & Hdom & Hid) ((Hfd' & Hpoll') & Hviews' & Hdom' & Hid').
  split; [split|split; [|split]].
  - by transitivity (open_fds (os w2)).
  - intros a. by transitivity (polled w2 a).
  - intros a. by transitivity (_views (base (obj_at w2 a))).
  - by transitivity (dom (objects w2)).
  - intros a Ha. destruct (Hid a Ha) as (? & ? & ? & ?).
    destruct (Hid' a (Hdom a Ha)) as (? & ? & ? & ?). repeat split; congruence.
Qed.

(** [grows] looks at the open descriptors and at the objects only. *)
Lemma grows_same w w' :
  open_fds (os w') = open_fds (os w) → objects w' = objects w → grows w w'.
Proof.
  intros Hfd Hobj. unfold grows, keeps_descriptors, keeps_views, keeps_identity,
    polled, obj_at. rewrite Hfd, Hobj. apply grows_refl.
Qed.

Lemma grows_more_fds w o :
  open_fds (os w) ⊆ open_fds o → grows w (with_os o w).
Proof.
  intros Hfd. destruct (grows_refl w) as ((_ & Hpoll) & Hviews & Hid).
  by split; [split|split].
Qed.

(** One object is replaced by one that has as many views or more, watches
    as many descriptors or more and, when the old one was alive, has its id,
    supervisor and geometry attributes. *)
Lemma grows_object w a ob :
  _views (base (obj_at w a)) `prefix_of` _views (base ob) →
  polled w a ⊆ from_option _poll ∅ (pty_attrs ob) →
  (a ∈ dom (objects w) →
   id (base ob) = id (base (obj_at w a)) ∧
   _supervisor (base ob) = _supervisor (base (obj_at w a)) ∧
   _columns (base ob) = _columns (base (obj_at w a)) ∧
   _lines (base ob) = _lines (base (obj_at w a))) →
  grows w (with_object a ob w).
Proof.
  intros Hviews Hpoll Hid.
  split; [split|split; [|split]]; simpl.
  - done.
  - intros b. unfold polled. destruct (decide (a = b)) as [<-|Hne].
    + by rewrite obj_at_with_object.
    + by rewrite obj_at_with_object_ne.
  - intros b. destruct (decide (a = b)) as [<-|Hne].
    + by rewrite obj_at_with_object.
    + by rewrite obj_at_with_object_ne.
  - rewrite dom_insert. apply union_subseteq_r.
  - intros b Hb. destruct (decide (a = b)) as [<-|Hne].
    + rewrite obj_at_with_object. by apply Hid.
    + by rewrite obj_at_with_object_ne.
Qed.

(** The attributes of [PtyProcess] of a session are replaced, the poll
    registrations kept. *)
Lemma grows_pty w self p p' :
  pty_attrs (obj_at w self) = Some p → _poll p ⊆ _poll p' →
  grows w (with_object self (mkObject (base (obj_at w self)) (Some p') None) w).
Proof.
  intros Hp Hpoll. apply grows_object; simpl; [done| |done].
  unfold polled. by rewrite Hp.
Qed.

Lemma obj_at_dead w a : a ∉ dom (objects w) → obj_at w a = blank.
Proof.
  intros Hdead%not_elem_of_dom. unfold obj_at. by rewrite lookup_total_alt, Hdead.
Qed.

(** Only an object that was not alive before differs. *)
Lemma grows_elsewhere w w' a :
  a ∉ dom (objects w) →
  open_fds (os w) ⊆ open_fds (os w') →
  dom (objects w) ⊆ dom (objects w') →
  (∀ b, b ≠ a → obj_at w' b = obj_at w b) →
  grows w w'.
Proof.
  intros Hdead Hfd Hdom Hothers.
  split; [split|split; [|split]]; try done.
  - intros b. unfold polled. destruct (decide (b = a)) as [->|Hne].
    + rewrite (obj_at_dead _ _ Hdead). simpl. apply empty_subseteq.
    + by rewrite Hothers.
  - intros b. destruct (decide (b = a)) as [->|Hne].
    + rewrite (obj_at_dead _ _ Hdead). simpl. apply prefix_nil.
    + by rewrite Hothers.
  - intros b Hb. rewrite Hothers; [done|]. by intros ->.
Qed.

Ltac grow :=
  repeat first
    [ apply grows_refl
    | eapply grows_trans;
      [|apply grows_more_fds; simpl;
        first [reflexivity | etrans; apply union_subseteq_r]]
    | eapply grows_trans;
      [|apply grows_object;
        [stores; reflexivity
        |unfold polled; stores;
         repeat match goal with H : pty_attrs _ = Some _ |- _ => rewrite H end;
         simpl; first [reflexivity | apply union_subseteq_r | apply empty_subseteq]
        |intros _; stores; done]] ].

Lemma Process__init__elsewhere w supervisor (ob0 : Object) :
  let self := fresh (dom (objects w)) in
  ∀ w', Process__init__ self supervisor (with_object self ob0 w) = Return () w' →
        os w' = os w ∧ dom (objects w) ⊆ dom (objects w') ∧
        ∀ b, b ≠ self → obj_at w' b = obj_at w b.
Proof.
  intros self w'. unfold Process__init__, uuid4, register. run. intros [= <-].
  split; [done|]. split.
  - simpl. rewrite !dom_insert. etrans; apply union_subseteq_r.
  - intros b Hb. unfold obj_at. simpl. by rewrite !lookup_total_insert_ne.
Qed.

Lemma grows_new_Process w supervisor : grows w (world_of (new_Process supervisor w)).
Proof.
  destruct (Process__init__registers w supervisor blank) as (w0 & Hinit & _).
  destruct (Process__init__elsewhere w supervisor blank w0 Hinit) as (Hos & Hdom & Hothers).
  unfold new_Process, alloc. binds. rewrite Hinit. simpl.
  apply (grows_elsewhere w w0 (fresh (dom (objects w)))); try done.
  - apply is_fresh.
  - by rewrite Hos.
Qed.

Lemma grows_new_PtyProcess w supervisor cmd env cwd :
  grows w (world_of (new_PtyProcess supervisor cmd env cwd w)).
Proof.
  destruct (Process__init__registers w supervisor blank_pty) as (w0 & Hinit & _).
  destruct (Process__init__elsewhere w supervisor blank_pty w0 Hinit)
    as (Hos & Hdom & Hothers).
  set (self := fresh (dom (objects w))) in *.
  set (far := λ w', open_fds (os w) ⊆ open_fds (os w') ∧
                    dom (objects w) ⊆ dom (objects w') ∧
                    ∀ b, b ≠ self → obj_at w' b = obj_at w b).
  assert (Hfar0 : far w0) by (split; [by rewrite Hos|done]).
  assert (Hstep : ∀ w' ob, far w' → far (with_object self ob w')).
  { intros w' ob (Hfd & Hd & Ho). split; [done|]. split.
    - simpl. rewrite dom_insert. etrans; [exact Hd|apply union_subseteq_r].
    - intros b Hb. rewrite obj_at_with_object_ne by done. by apply Ho. }
  assert (Hgrows : ∀ w', far w' → grows w w').
  { intros w' (Hfd & Hd & Ho). apply (grows_elsewhere _ _ self); try done.
    apply is_fresh. }
  rewrite (new_PtyProcess_run _ _ _ _ _ _ Hinit). fold self.
  destruct (cmd_or_shell cmd w0); simpl; try by apply Hgrows.
  destruct (env_or_default env _); simpl; apply Hgrows; auto.
Qed.

Lemma grows_attach_view w self view : grows w (world_of (attach_view self view w)).
Proof.
  destruct (attach_view_run w self view)
    as (w' & -> & Hos & _ & _ & Hdom & Hothers & Hself & _). simpl.
  split; [split|split; [|split]].
  - by rewrite Hos.
  - intros a. unfold polled. destruct (decide (a = self)) as [->|Hne].
    + by rewrite Hself.
    + by rewrite Hothers.
  - intros a. destruct (decide (a = self)) as [->|Hne].
    + rewrite Hself. simpl. by apply prefix_app_r.
    + by rewrite Hothers.
  - done.
  - intros a _. destruct (decide (a = self)) as [->|Hne].
    + by rewrite Hself.
    + by rewrite Hothers.
Qed.

Lemma grows_start w self : grows w (world_of (start self w)).
Proof.
  unfold start, _start, _start_unbuilt, Popen, openpty. run.
  destruct (pty_attrs (obj_at w self)) as [p|] eqn:Hp; simpl.
  - rewrite ?Hp. simpl.
    destruct (pty_free (os w)) as [|k]; simpl; [apply grows_refl|].
    destruct (executable (_cmd p)); simpl; stores; grow.
  - destruct (unbuilt (obj_at w self)) as [u|] eqn:Hu; simpl.
    + destruct (pty_free (os w)) as [|k]; simpl; [apply grows_refl|]. grow.
    + rewrite ?Hp, ?Hu. simpl. apply grows_refl.
Qed.

Lemma grows_stop w self : grows w (world_of (stop self w)).
Proof.
  unfold stop. run.
  destruct (pty_attrs (obj_at w self)) as [p|] eqn:Hp; simpl;
    [|destruct (unbuilt _); apply grows_refl].
  destruct (_process p); simpl; [|apply grows_refl].
  rewrite obj_at_with_os, Hp. simpl. grow.
Qed.

Lemma grows_send_bytes w self bytes : grows w (world_of (send_bytes self bytes w)).
Proof.
  destruct (pty_attrs (obj_at w self)) as [p|] eqn:Hp.
  - rewrite (send_bytes_run _ _ _ _ Hp). unfold os_write.
    destruct (_master p) as [m|]; [|apply grows_refl].
    destruct (decide (m ∈ open_fds (os w))); simpl; grow.
  - unfold send_bytes. run. rewrite !Hp. simpl.
    destruct (unbuilt (obj_at w self)) as [u|] eqn:Hu; simpl;
      [|rewrite ?Hp, ?Hu; apply grows_refl].
    destruct (had_fds u) as [[m s]|]; simpl; [|apply grows_refl].
    unfold os_write. destruct (decide (m ∈ open_fds (os w))); simpl; grow.
Qed.

Lemma grows_refresh_views w self : grows w (world_of (refresh_views self w)).
Proof.
  destruct (pty_attrs (obj_at w self)) as [p|] eqn:Hp.
  - rewrite (refresh_views_run _ _ _ Hp).
    destruct (dirty_lines (_screens p)); simpl; [|apply grows_refl].
    apply (grows_trans _ (with_object self
             (mkObject (base (obj_at w self))
                (Some (set_emulator (_stream p) (dirty_clear (_screens p)) p)) None) w));
      [|by apply grows_same].
    by apply (grows_pty _ _ p).
  - unfold refresh_views. run. rewrite Hp. destruct (unbuilt _); apply grows_refl.
Qed.

Lemma _read_turn_next w self n w' :
  _read_turn self w = Next n w' →
  grows w w' ∧ (backlog self w' < backlog self w)%nat.
Proof.
  unfold _read_turn, os_read, backlog.
  destruct (pty_attrs (obj_at w self)) as [p|] eqn:Hp; [|done].
  destruct (poll_ready _ _); [|done].
  destruct (_master p) as [m|] eqn:Hm; [|done].
  destruct (decide _); [|done].
  destruct (pending_at (os w) m) as [|c buf] eqn:Hbuf; [done|].
  remember (str_drop 100 (String c buf)) as rest eqn:Hrest.
  destruct (feed _ _ _) as [st sc]. intros [= _ <-]. split; [grow|].
  stores. rewrite Hm. unfold pending_at; simpl. rewrite lookup_insert_eq; simpl.
  assert (Hsplit := str_take_drop 100 (String c buf)). rewrite <- Hrest in Hsplit.
  assert (Hlen : String.length (str_take 100 (String c buf) ++ rest)
                 = S (String.length buf)) by by rewrite Hsplit.
  rewrite str_length_app in Hlen.
  change (str_take 100 (String c buf)) with (String c (str_take 99 buf)) in Hlen.
  cbn [String.length] in Hlen. lia.
Qed.

Lemma grows_read_loop self : ∀ k w read,
  (backlog self w < k)%nat → grows w (world_of (_read_loop self read w)).
Proof.
  induction k as [|k IH]; intros w read Hk; [lia|].
  rewrite _read_loop_step.
  destruct (_read_turn self w) as [|n w'|out] eqn:Hturn.
  - apply grows_refl.
  - destruct (_read_turn_next _ _ _ _ Hturn) as [Hgrows Hless].
    eapply grows_trans; [exact Hgrows|]. apply IH. lia.
  - unfold _read_turn, os_read in Hturn.
    destruct (pty_attrs (obj_at w self)) as [p|]; [|injection Hturn as <-; apply grows_refl].
    destruct (poll_ready _ _); [|done].
    destruct (_master p) as [m|]; [|injection Hturn as <-; apply grows_refl].
    destruct (decide _); [|injection Hturn as <-; apply grows_refl].
    destruct (pending_at (os w) m); [injection Hturn as <-; apply grows_refl|].
    by destruct (feed _ _ _).
Qed.

Lemma grows_read w self : grows w (world_of (_read self w)).
Proof.
  unfold _read. binds.
  pose proof (grows_read_loop self (S (backlog self w)) w 0%nat ltac:(lia)) as Hloop.
  destruct (_read_loop self 0 w) as [read w'| |]; try exact Hloop.
  simpl in Hloop. destruct (decide (read = 0%nat)); [exact Hloop|].
  eapply grows_trans; [exact Hloop|].
  pose proof (grows_refresh_views w' self) as Hrefresh.
  by destruct (refresh_views self w').
Qed.

Lemma grows_for_each {A} (xs : list A) (body : A → Py unit) :
  (∀ x w, grows w (world_of (body x w))) →
  ∀ w, grows w (world_of (for_each xs body w)).
Proof.
  intros Hbody. induction xs as [|x xs IH]; intros w; [apply grows_refl|].
  cbn [for_each]. binds. pose proof (Hbody x w) as Hx.
  destruct (body x w) as [[] w'| |]; try exact Hx.
  eapply grows_trans; [exact Hx|apply IH].
Qed.

Lemma grows_perform c w : grows w (perform c w).
Proof.
  destruct c; simpl.
  - by apply grows_same.
  - apply grows_new_Process.
  - apply grows_new_PtyProcess.
  - apply grows_attach_view.
  - apply grows_refl.
  - apply grows_start.
  - apply grows_stop.
  - apply grows_send_bytes.
  - unfold send_keypress. binds. pose proof (grows_send_bytes w self key) as Hsend.
    destruct (send_bytes self key w) as [[] w'| |]; try exact Hsend.
    eapply grows_trans; [exact Hsend|].
    pose proof (grows_read w' self) as Hread. by destruct (_read self w').
  - apply grows_read.
  - apply grows_refresh_views.
  - unfold read_all. apply grows_for_each. intros a w0. binds.
    pose proof (grows_read w0 a) as Hread. by destruct (_read a w0).
  - by apply grows_same.
Qed.

Lemma grows_perform_all cs : ∀ w, grows w (perform_all cs w).
Proof.
  induction cs as [|c cs IH]; intros w; [apply grows_refl|].
  eapply grows_trans; [apply grows_perform|apply IH].
Qed.

Lemma constructed_geometry w supervisor (ob0 : Object) :
  let self := fresh (dom (objects w)) in
  ∀ w', Process__init__ self supervisor (with_object self ob0 w) = Return () w' →
        self ∈ dom (objects w') ∧
        _columns (base (obj_at w' self)) = 80 ∧ _lines (base (obj_at w' self)) = 24.
Proof.
  intros self w'. unfold Process__init__, uuid4, register. run. intros [= <-].
  unfold obj_at, with_supervisor, with_object. simpl.
  split; [|split; by rewrite !lookup_total_insert_eq].
  rewrite dom_insert. apply elem_of_union_l. by apply elem_of_singleton.
Qed.

(** X17.  No call closes a descriptor or takes one off a poll object:
    after any sequence of calls, failed ones included, every descriptor that
    was open is open and every descriptor a session polled is still polled
    by it.  [stop()] in particular leaves the pseudo terminal open, and
    every [start()] adds two descriptors for good. *)
Theorem no_call_closes_a_descriptor cs w :
  open_fds (os w) ⊆ open_fds (os (perform_all cs w)) ∧
  ∀ self, polled w self ⊆ polled (perform_all cs w) self.
Proof. by destruct (grows_perform_all cs w) as (? & _). Qed.

(** X18.  No call takes a view off a session: after any sequence of calls
    the list of attached views of a session starts with the list it was, so
    a view once attached keeps counting for the geometry and keeps being
    redrawn. *)
Theorem no_call_removes_a_view cs w self :
  _views (base (obj_at w self)) `prefix_of` _views (base (obj_at (perform_all cs w) self)) ∧
  ∀ view, view ∈ _views (base (obj_at w self)) →
          view ∈ _views (base (obj_at (perform_all cs w) self)).
Proof.
  destruct (grows_perform_all cs w) as (_ & Hviews & _).
  split; [apply Hviews|]. intros view Hin.
  destruct (Hviews self) as [more ->]. apply elem_of_app. by left.
Qed.

(** X19.  A process stays alive under its id, and its [columns] and [lines]
    stay the defaults it was constructed with, 80 and 24, through any
    sequence of calls: no call resizes a session, whatever views are
    attached and whatever they report. *)
Theorem columns_and_lines_stay_default cs w supervisor cmd env cwd self w1 :
  new_Process supervisor w = Return self w1 ∨
  new_PtyProcess supervisor cmd env cwd w = Return self w1 →
  let w2 := perform_all cs w1 in
  self ∈ dom (objects w2) ∧
  id (base (obj_at w2 self)) = id (base (obj_at w1 self)) ∧
  columns self w2 = Return 80 w2 ∧
  lines self w2 = Return 24 w2.
Proof.
  intros Hnew w2.
  assert (Hbuilt : self ∈ dom (objects w1) ∧
                   _columns (base (obj_at w1 self)) = 80 ∧
                   _lines (base (obj_at w1 self)) = 24).
  { destruct Hnew as [Hnew|Hnew].
    - destruct (Process__init__registers w supervisor blank) as (w0 & Hinit & _).
      destruct (constructed_geometry w supervisor blank w0 Hinit)
        as (Hlive & Hcols & Hlines).
      unfold new_Process, alloc in Hnew. binds. rewrite Hinit in Hnew.
      by injection Hnew as <- <-.
    - destruct (Process__init__registers w supervisor blank_pty) as (w0 & Hinit & _).
      destruct (constructed_geometry w supervisor blank_pty w0 Hinit)
        as (Hlive & Hcols & Hlines).
      rewrite (new_PtyProcess_run _ _ _ _ _ _ Hinit) in Hnew.
      destruct (cmd_or_shell cmd w0) as [c w0'| |]; try done. cbv zeta in Hnew.
      destruct (env_or_default env _) as [e w0''| |]; try done.
      injection Hnew as <- <-. rewrite !obj_at_with_object. simpl.
      split; [|done]. rewrite dom_insert. apply elem_of_union_l.
      by apply elem_of_singleton. }
  destruct Hbuilt as (Hlive & Hcols & Hlines).
  destruct (grows_perform_all cs w1) as (_ & _ & Hdom & Hid). fold w2 in Hdom, Hid.
  destruct (Hid self Hlive) as (Hsame & _ & Hcols' & Hlines').
  split; [by apply Hdom|]. split; [done|].
  unfold columns, lines. run. by rewrite Hcols', Hlines', Hcols, Hlines.
Qed.

(** ** A constructor that gave up *)

(** X20.  A [PtyProcess] whose constructor was left by the [KeyError] of a
    missing variable has none of the attributes assigned after that point.
    [stop], [is_running], [_read] and [refresh_views] end in
    [AttributeError] and change nothing, and so does [send_bytes] as long as
    no [_start] was called.  [start()] opens a pseudo terminal, keeps its
    two descriptors in [_master] and [_slave], and only then ends in
    [AttributeError], on [self._cmd] or [self._env]; after that
    [send_bytes] writes to the new master. *)
Theorem abandoned_session_lacks_attributes w self u bytes :
  pty_attrs (obj_at w self) = None →
  unbuilt (obj_at w self) = Some u →
  stop self w = Raise AttributeError w ∧
  is_running self w = Raise AttributeError w ∧
  _read self w = Raise AttributeError w ∧
  refresh_views self w = Raise AttributeError w ∧
  (had_fds u = None → send_bytes self bytes w = Raise AttributeError w) ∧
  (pty_free (os w) ≠ 0%nat →
   ∃ w',
     start self w = Raise AttributeError w' ∧
     open_fds (os w') =
       {[fresh ({[fresh (open_fds (os w))]} ∪ open_fds (os w))]}
       ∪ ({[fresh (open_fds (os w))]} ∪ open_fds (os w)) ∧
     pty_attrs (obj_at w' self) = None ∧
     unbuilt (obj_at w' self) =
       Some (mkUnbuilt (had_cmd u)
               (Some (fresh (open_fds (os w)),
                      fresh ({[fresh (open_fds (os w))]} ∪ open_fds (os w))))) ∧
     send_bytes self bytes w' =
       Return () (with_os (log_write (fresh (open_fds (os w)))
                                     (default bytes (KEYMAP !! bytes)) (os w')) w')).
Proof.
  intros Hp Hu. repeat split.
  - unfold stop. run. by rewrite Hp, Hu.
  - unfold is_running. run. by rewrite Hp, Hu.
  - unfold _read. binds. rewrite _read_loop_step. unfold _read_turn. by rewrite Hp.
  - unfold refresh_views. run. by rewrite Hp, Hu.
  - intros Hfds. unfold send_bytes. run. by rewrite Hp, Hu, Hfds.
  - intros Hfree. unfold start, _start, _start_unbuilt, openpty. run.
    rewrite Hp, Hu. simpl.
    destruct (pty_free (os w)) as [|k]; [done|]. simpl.
    eexists. split; [reflexivity|]. stores. rewrite ?Hp.
    repeat split.
    unfold send_bytes. run. stores. rewrite ?Hp. simpl.
    unfold os_write. rewrite decide_True.
    + by destruct (KEYMAP !! bytes).
    + simpl. apply elem_of_union_r, elem_of_union_l. by apply elem_of_singleton.
Qed.

End Properties.

(** * The methods at work on the small system *)

(** The geometry of a session with the two views is (60, 20). *)
Lemma C1_two_views_witness :
  value_of (available_columns 0%nat two_views) = Some 60 ∧
  value_of (available_lines 0%nat two_views) = Some 20.
Proof.
  destruct (C1_geometry_least_of_default_and_views two_views 0)
    as (cols & rows & Hcols & Hrows & _ & _ & _ & Hexample).
  destruct Hexample as [-> ->]; [vm_compute; reflexivity..|].
  rewrite Hcols, Hrows. split; reflexivity.
Defined.

(** C1 as the specification states it fails on a session with the one view
    that reports (100, 40): the session reports (80, 24), which is not the
    least of what its views report. *)
Lemma C1_one_wide_view_counterexample :
  available_columns 0%nat one_view = Return 80 one_view ∧
  available_lines 0%nat one_view = Return 24 one_view ∧
  reported_columns one_view 0 = [100] ∧
  reported_lines one_view 0 = [40] ∧
  ¬ least_over_views one_view 0 80 24.
Proof.
  repeat split; try (vm_compute; reflexivity).
  unfold least_over_views.
  assert (Hviews : _views (base (obj_at one_view 0)) = [0%nat]) by (vm_compute; reflexivity).
  assert (Hcols : reported_columns one_view 0 = [100]) by (vm_compute; reflexivity).
  rewrite Hviews, Hcols. intros [[Hin _] _].
  apply list_elem_of_singleton in Hin. discriminate Hin.
Qed.

(** After [detach_view] of the narrow view the geometry is what it was. *)
Lemma detach_leaves_geometry :
  let w := world_of (detach_view 0%nat 1%nat two_views) in
  value_of (available_columns 0%nat w) = Some 60 ∧
  value_of (available_lines 0%nat w) = Some 20 ∧
  _views (base (obj_at w 0)) = [0%nat; 1%nat].
Proof. repeat split; vm_compute; reflexivity. Qed.

(** [send_bytes] with a plain command line. *)
Lemma C3_plain_bytes_witness :
  open_master started 0 = Some 3%nat ∧
  send_bytes 0%nat "ls" started = Return () (with_os (log_write 3 "ls" (os started)) started).
Proof.
  split; [vm_compute; reflexivity|].
  destruct (C3_send_bytes_writes_through_keymap started 0 3 "ls")
    as (code & Hsend & _ & Hplain); [vm_compute; reflexivity|].
  rewrite <- (Hplain ltac:(vm_compute; intros H; discriminate H)) at 2.
  exact Hsend.
Defined.

(** C3 as the specification states it fails for the byte string "enter":
    what reaches the terminal is a line feed. *)
Lemma C3_enter_counterexample :
  written (os started) = [] ∧
  value_of (send_bytes 0%nat "enter" started) = Some () ∧
  written (os (world_of (send_bytes 0%nat "enter" started))) = [(3%nat, chr 10)] ∧
  written (os (world_of (send_bytes 0%nat "enter" started))) ≠ [(3%nat, "enter")].
Proof.
  repeat split; try (vm_compute; reflexivity).
  vm_compute. intros [=].
Qed.

(** [stop()] on the running session. *)
Lemma C4_running_session_witness :
  value_of (is_running 0%nat started) = Some true ∧
  value_of (is_running 0%nat (world_of (stop 0%nat started))) = Some false ∧
  killed (os (world_of (stop 0%nat started))) = [100%nat].
Proof.
  assert (Hp : ∃ p, pty_attrs (obj_at started 0) = Some p ∧ _process p = Some 100%nat)
    by (eexists; split; vm_compute; reflexivity).
  destruct Hp as (p & Hp & Hpid).
  destruct (C4_stop_kills_once started 0 p Hp) as [Hfalse Hkill].
  rewrite Hpid in Hkill. destruct Hkill as (w' & Hstop & Hkilled).
  split; [vm_compute; reflexivity|]. split; [exact Hfalse|].
  rewrite Hstop. simpl. rewrite Hkilled. vm_compute; reflexivity.
Defined.

(** C4 as the specification states it fails on the second [stop()]: it is
    not a silent return but an [AttributeError]. *)
Lemma C4_second_stop_counterexample :
  stopped = world_of (stop 0%nat started) ∧
  value_of (stop 0%nat started) = Some () ∧
  stop 0%nat stopped = Raise AttributeError stopped ∧
  stop 0%nat stopped ≠ Return () stopped.
Proof.
  assert (Hraise : stop 0%nat stopped = Raise AttributeError stopped)
    by (vm_compute; reflexivity).
  repeat split; try (vm_compute; reflexivity).
  rewrite Hraise. discriminate.
Qed.

(** The key "enter" on the session at its prompt. *)
Lemma C5_enter_witness :
  open_master prompted 0 = Some 3%nat ∧
  send_keypress 0%nat "enter" false false false false prompted =
    (_read 0%nat ;; mret ()) (with_os (log_write 3 (chr 10) (os prompted)) prompted).
Proof.
  assert (Hopen : open_master prompted 0 = Some 3%nat) by (vm_compute; reflexivity).
  split; [exact Hopen|].
  destruct (C5_send_keypress_writes_then_reads prompted 0 3 "enter" false false false false Hopen)
    as (code & _ & Henter & Hsend).
  rewrite Hsend, (Henter eq_refl). reflexivity.
Defined.



(** Two [refresh_views] in a row on the session. *)
Lemma C7_session_witness :
  refresh_views 0%nat session = Return () (world_of (refresh_views 0%nat session)) ∧
  ∃ w2, refresh_views 0%nat (world_of (refresh_views 0%nat session)) = Return () w2.
Proof.
  assert (Hfirst : refresh_views 0%nat session
                   = Return () (world_of (refresh_views 0%nat session)))
    by (vm_compute; reflexivity).
  split; [exact Hfirst|].
  destruct (C7_second_refresh_carries_no_lines session 0 _ Hfirst)
    as (st & sc & _ & _ & _ & _ & w2 & Hsecond & _).
  exists w2. exact Hsecond.
Defined.

(** A write on the session that was never started. *)
Lemma C8_not_started_witness :
  send_bytes 0%nat "ls" created = Raise TypeError created ∧
  send_keypress 0%nat "ls" false false false false created = Raise TypeError created.
Proof.
  assert (Hp : ∃ p, pty_attrs (obj_at created 0) = Some p ∧ _master p = None)
    by (eexists; split; vm_compute; reflexivity).
  destruct Hp as (p & Hp & Hmaster).
  destruct (C8_write_without_descriptor created 0 p "ls" false false false false Hp)
    as (Hnone & _).
  exact (Hnone Hmaster).
Defined.

(** C8 as the specification states it fails on the stopped session: the
    write raises nothing and reaches the descriptor. *)
Lemma C8_stopped_session_counterexample :
  value_of (is_running 0%nat stopped) = Some false ∧
  raised (send_bytes 0%nat "ls" stopped) = None ∧
  value_of (send_bytes 0%nat "ls" stopped) = Some () ∧
  written (os (world_of (send_bytes 0%nat "ls" stopped))) = [(3%nat, "ls")].
Proof. repeat split; vm_compute; reflexivity. Qed.



(** * Further runs *)

(** The session is found under its id after it is registered again. *)
Lemma register_then_process_witness :
  0%nat ∈ dom (objects created) ∧
  ∃ w', register 0%nat 0%nat created = Return () w' ∧
        process 0%nat (counter_hex 0) w' = Return (Some 0%nat) w'.
Proof.
  assert (Halive : 0%nat ∈ dom (objects created)) by (vm_compute; reflexivity).
  split; [exact Halive|].
  destruct (register_then_process created 0 0 Halive) as (w' & Hreg & Hfound & _).
  exists w'. split; [exact Hreg|exact Hfound].
Defined.

(** The session is forgotten once it is released. *)
Lemma process_of_released_witness :
  (supervisors created !!! 0%nat) !! counter_hex 0 = Some 0%nat ∧
  process 0%nat (counter_hex 0) (released 0 created) = Return None (released 0 created).
Proof.
  assert (Hentry : (supervisors created !!! 0%nat) !! counter_hex 0 = Some 0%nat)
    by (vm_compute; reflexivity).
  split; [exact Hentry|]. exact (process_of_released created 0 _ 0 Hentry).
Defined.

(** The sweep over a supervisor that has one object of the base class. *)
Lemma read_all_one_process_witness :
  supervisors plain !!! 0%nat = {[counter_hex 0 := 0%nat]} ∧
  read_all 0%nat plain = Raise AttributeError plain.
Proof.
  assert (Hone : supervisors plain !!! 0%nat = {[counter_hex 0 := 0%nat]})
    by (vm_compute; reflexivity).
  split; [exact Hone|].
  destruct (read_all_one_process plain 0 _ 0 Hone) as (_ & _ & Hbase).
  apply Hbase; vm_compute; reflexivity.
Defined.

(** View 0 goes from the first session to the second. *)
Lemma reattached_view_witness :
  let w2 := world_of (attach_view 1%nat 0%nat (world_of (attach_view 0%nat 0%nat pair))) in
  0%nat ∈ _views (base (obj_at w2 0)) ∧
  0%nat ∈ _views (base (obj_at w2 1)) ∧
  SublimeView._process (view_at w2 0) = Some 1%nat.
Proof. apply (reattached_view_stays_in_old_list pair 0 1 0). discriminate. Defined.

(** A refresh of the session with its two views. *)
Lemma refresh_views_redraw_witness :
  refresh_views 0%nat session = Return () (world_of (refresh_views 0%nat session)) ∧
  length (SublimeView.refreshes (view_at (world_of (refresh_views 0%nat session)) 1))
    = S (length (SublimeView.refreshes (view_at session 1))).
Proof.
  assert (Hrun : refresh_views 0%nat session
                 = Return () (world_of (refresh_views 0%nat session)))
    by (vm_compute; reflexivity).
  split; [exact Hrun|].
  destruct (refresh_views_one_redraw_per_attachment session 0 _ Hrun)
    as (st & sc & d & _ & _ & Hviews).
  destruct (Hviews 1%nat) as (-> & _).
  rewrite length_app, length_replicate.
  assert (Hviews01 : _views (base (obj_at session 0)) = [0%nat; 1%nat])
    by (vm_compute; reflexivity).
  rewrite Hviews01. vm_compute. reflexivity.
Defined.

(** The dictionary of a new screen has all 24 rows. *)
Lemma refresh_views_dictionary_witness :
  ∃ d, dirty_lines (printer_screen 80 24) = Some d ∧ size d = 24%nat.
Proof.
  destruct (refresh_views_dictionary (printer_screen 80 24)) as (d & Hd & Hdom & _).
  { intros n Hn. unfold printer_screen in *. cbn [dirty display] in *.
    rewrite length_replicate. apply elem_of_list_to_set, elem_of_seq in Hn. lia. }
  exists d. split; [exact Hd|].
  rewrite <- size_dom, Hdom. vm_compute. reflexivity.
Defined.

(** The refresh of the session whose screen has a dirty row 30. *)
Lemma refresh_views_row_out_of_range_witness :
  refresh_views 0%nat garbled = Raise IndexError garbled.
Proof.
  assert (Hp : ∃ p, pty_attrs (obj_at garbled 0) = Some p ∧
                    30%nat ∈ dirty (_screens p) ∧
                    (length (display (_screens p)) <= 30)%nat).
  { eexists. split; [vm_compute; reflexivity|]. split; [|simpl; lia].
    vm_compute. reflexivity. }
  destruct Hp as (p & Hp & Hdirty & Hpast).
  exact (refresh_views_row_out_of_range garbled 0 p 30 Hp Hdirty Hpast).
Defined.

(** [start()] with no pseudo terminal left. *)
Lemma start_without_terminal_witness :
  pty_free (os exhausted) = 0%nat ∧ start 0%nat exhausted = Raise OSError exhausted.
Proof.
  assert (Hp : ∃ p, pty_attrs (obj_at exhausted 0) = Some p)
    by (eexists; vm_compute; reflexivity).
  destruct Hp as (p & Hp). split; [reflexivity|].
  exact (start_without_terminal exhausted 0 p Hp eq_refl).
Defined.

(** [start()] of the session whose command does not exist. *)
Lemma start_command_not_run_witness :
  raised (start 0%nat misnamed) = Some OSError ∧
  open_fds (os (world_of (start 0%nat misnamed))) = list_to_set [0; 1; 2; 3; 4]%nat.
Proof.
  assert (Hp : ∃ p, pty_attrs (obj_at misnamed 0) = Some p ∧ executable (_cmd p) = false)
    by (eexists; split; vm_compute; reflexivity).
  destruct Hp as (p & Hp & Hexec).
  destruct (start_command_not_run misnamed 0 p Hp ltac:(vm_compute; discriminate) Hexec)
    as (w' & p' & Hstart & _ & _ & _ & _ & _ & Hfds & _).
  rewrite Hstart. split; [reflexivity|]. simpl. rewrite Hfds. vm_compute. reflexivity.
Defined.

(** The running session is started again. *)
Lemma second_start_witness :
  ∃ w' p', start 0%nat started = Return () w' ∧
           pty_attrs (obj_at w' 0) = Some p' ∧
           _master p' = Some 5%nat ∧ _poll p' = {[5%nat; 3%nat]} ∧
           killed (os w') = [].
Proof.
  assert (Hp : ∃ p, pty_attrs (obj_at started 0) = Some p ∧ _master p = Some 3%nat ∧
                    _process p = Some 100%nat ∧ executable (_cmd p) = true ∧
                    _poll p = {[3%nat]})
    by (eexists; repeat split; vm_compute; reflexivity).
  destruct Hp as (p & Hp & Hm & Hpid & Hexec & Hpoll).
  destruct (second_start_keeps_first_terminal started 0 p 3 100 Hp Hm
              ltac:(vm_compute; reflexivity) Hpid ltac:(vm_compute; discriminate) Hexec)
    as (w' & p' & Hstart & Hp' & Hm' & _ & Hpoll' & _ & Hkilled & _).
  exists w', p'. split; [exact Hstart|]. split; [exact Hp'|].
  split; [rewrite Hm'; vm_compute; reflexivity|].
  split; [rewrite Hpoll', Hpoll; vm_compute; reflexivity|].
  rewrite Hkilled. reflexivity.
Defined.

(** [_read] on the session that was never started. *)
Lemma _read_idle_witness : _read 0%nat created = Return 0%nat created.
Proof.
  assert (Hp : ∃ p, pty_attrs (obj_at created 0) = Some p ∧ _poll p = ∅)
    by (eexists; split; vm_compute; reflexivity).
  destruct Hp as (p & Hp & Hpoll).
  apply (_read_idle created 0 p Hp). intros fd Hfd. rewrite Hpoll in Hfd.
  by apply not_elem_of_empty in Hfd.
Defined.

(** [_read] on the session started twice, with the prompt of the first
    child waiting on descriptor 3. *)
Lemma _read_blocks_witness : _read 0%nat stale = Blocks stale.
Proof.
  assert (Hp : ∃ p, pty_attrs (obj_at stale 0) = Some p ∧ _master p = Some 5%nat ∧
                    3%nat ∈ _poll p)
    by (eexists; repeat split; vm_compute; reflexivity).
  destruct Hp as (p & Hp & Hm & Hstale).
  apply (_read_blocks_on_stale_descriptor stale 0 p 5 3 Hp Hm); try exact Hstale;
    vm_compute; try reflexivity. discriminate.
Defined.

(** [stop()] and then a read, on the session at its prompt. *)
Lemma stop_leaves_terminal_readable_witness :
  ∃ w'', _read_loop 0%nat 0 (world_of (stop 0%nat prompted)) = Return 2%nat w'' ∧
         pending_at (os w'') 3 = "".
Proof.
  destruct (stop_leaves_terminal_readable prompted 0 3 (world_of (stop 0%nat prompted)))
    as (_ & _ & _ & _ & w'' & Hloop & Hpend); try (vm_compute; reflexivity).
  exists w''. split; [exact Hloop|exact Hpend].
Defined.

(** The line feed of "enter" goes out as it is. *)
Lemma keymap_codes_witness :
  KEYMAP !! "enter" = Some (chr 10) ∧ KEYMAP !! chr 10 = None.
Proof.
  assert (Henter : KEYMAP !! "enter" = Some (chr 10)) by (vm_compute; reflexivity).
  split; [exact Henter|]. exact (proj1 (keymap_codes_are_not_keys _ _ Henter)).
Defined.

(** The shell session of the small system, as constructed. *)
Lemma constructed_session_witness :
  ∃ p, pty_attrs (obj_at created 0) = Some p ∧ _cmd p = ["/bin/sh"] ∧
       _env p !! "TERM" = Some "linux" ∧ _env p !! "PATH" = None.
Proof.
  assert (Hnew : new_PtyProcess 0%nat None None None supervised = Return 0%nat created)
    by (vm_compute; reflexivity).
  destruct (constructed_session_attributes supervised 0 None None None) as [_ Hattrs].
  destruct (Hattrs 0%nat created Hnew)
    as (p & Hp & _ & _ & _ & _ & _ & _ & (sh & Hshell & Hcmd) & (Hdom & Hfixed & _) & _).
  exists p. split; [exact Hp|]. split; [|split].
  - rewrite Hcmd. f_equal. assert (Hsh : environ (os supervised) !! "SHELL" = Some "/bin/sh")
      by (vm_compute; reflexivity). rewrite Hsh in Hshell. by injection Hshell as <-.
  - apply (Hfixed "TERM" "linux"). vm_compute. reflexivity.
  - apply not_elem_of_dom. rewrite Hdom. vm_compute. intros H. discriminate H.
Defined.

(** View 1 after it is detached and the session is stopped, started and read. *)
Lemma no_call_removes_a_view_witness :
  1%nat ∈ _views (base (obj_at (perform_all [DetachView 0 1; Stop 0; Start 0; Read 0]
                                            prompted) 0)).
Proof.
  apply no_call_removes_a_view.
  assert (Hviews : _views (base (obj_at prompted 0)) = [0%nat; 1%nat])
    by (vm_compute; reflexivity).
  rewrite Hviews. right. left.
Defined.

(** The session after two views are attached and it has run for a while. *)
Lemma columns_and_lines_witness :
  let w2 := perform_all [AttachView 0 0; AttachView 0 1; Start 0; ChildWrites 3 "$ "; Read 0]
                        created in
  columns 0%nat w2 = Return 80 w2 ∧ lines 0%nat w2 = Return 24 w2.
Proof.
  assert (Hnew : new_PtyProcess 0%nat None None None supervised = Return 0%nat created)
    by (vm_compute; reflexivity).
  intros w2.
  destruct (columns_and_lines_stay_default
              [AttachView 0 0; AttachView 0 1; Start 0; ChildWrites 3 "$ "; Read 0]
              supervised 0 None None None 0 created (or_intror Hnew))
    as (_ & _ & Hcols & Hlines).
  split; [exact Hcols|exact Hlines].
Defined.

(** The session whose constructor gave up, stopped and then started. *)
Lemma abandoned_session_witness :
  raised (new_PtyProcess 0%nat None None None nameless) = Some KeyError ∧
  stop 0%nat abandoned = Raise AttributeError abandoned ∧
  raised (start 0%nat abandoned) = Some AttributeError ∧
  open_fds (os (world_of (start 0%nat abandoned))) = list_to_set [0; 1; 2; 3; 4]%nat.
Proof.
  assert (Hp : pty_attrs (obj_at abandoned 0) = None) by (vm_compute; reflexivity).
  assert (Hu : unbuilt (obj_at abandoned 0) = Some (mkUnbuilt (Some ["/bin/sh"]) None))
    by (vm_compute; reflexivity).
  destruct (abandoned_session_lacks_attributes abandoned 0 _ "ls" Hp Hu)
    as (Hstop & _ & _ & _ & _ & Hstart).
  destruct (Hstart ltac:(vm_compute; discriminate)) as (w' & Hrun & Hfds & _).
  split; [vm_compute; reflexivity|]. split; [exact Hstop|].
  rewrite Hrun. split; [reflexivity|]. simpl. rewrite Hfds. vm_compute. reflexivity.
Defined.
